(** * vs-masktools: rectangular masks, deferred masks and mask resolution

    A shallow embedding of [vsmasktools/utils.py] and [vsmasks/abstract.py].

    The sources never touch samples directly: they build a graph of runtime
    filters (blank clip, crop, borders, loop, expression, ...).  A clip is
    modelled by what such a graph denotes: a format, a resolution and the
    list of its frames, a frame being the samples of one plane addressed by
    column and row.  Integer sample formats only.  The filters used here act
    on every plane alike, so one plane stands for all of them. *)

From Stdlib Require Import String ZArith Bool Lia List.
Import ListNotations.
Open Scope Z_scope.

(** ** Exceptions and the error monad *)

Inductive Exn : Type :=
| VariableFormatError
| VariableResolutionError
| CustomValueError (msg : string)
| FramesLengthError (msg : string)
| ClipLengthError
| IndexError
| ValueError
| TypeError
| ExprError
| FilterError.          (* a runtime filter refuses its arguments *)

Definition result (A : Type) : Type := (Exn + A)%type.

Definition ret {A : Type} (a : A) : result A := inr a.

Definition raise {A : Type} (e : Exn) : result A := inl e.

Definition bind {A B : Type} (c : result A) (k : A -> result B) : result B :=
  match c with
  | inl e => inl e
  | inr a => k a
  end.

Notation "x <- c ;; k" := (bind c (fun x => k))
  (at level 61, c at next level, right associativity).

(** ** Clips *)

Inductive ColorFamily : Type := GRAY | YUV | RGB.

Record VideoFormat : Type := mkFormat {
  color_family : ColorFamily;
  bits_per_sample : Z;
  subsampling_w : Z;
  subsampling_h : Z
}.

(** A frame: the sample at column [x], row [y]. *)
Definition Frame : Type := Z -> Z -> Z.

(** [format = None] is a clip of variable format; a width or height of 0 is
    a clip of variable resolution. *)
Record VideoNode : Type := mkNode {
  format : option VideoFormat;
  width : Z;
  height : Z;
  frames : list Frame
}.

Definition num_frames (clip : VideoNode) : Z := Z.of_nat (length (frames clip)).

Definition with_frames (clip : VideoNode) (fs : list Frame) : VideoNode :=
  {| format := format clip; width := width clip; height := height clip;
     frames := fs |}.

(** [fmt.replace(color_family=vs.GRAY, subsampling_w=0, subsampling_h=0)] *)
Definition replace_gray (fmt : VideoFormat) : VideoFormat :=
  {| color_family := GRAY; bits_per_sample := bits_per_sample fmt;
     subsampling_w := 0; subsampling_h := 0 |}.

(** Peak value: the largest sample an integer format can hold. *)
Definition peak_value (fmt : VideoFormat) : Z := 2 ^ bits_per_sample fmt - 1.

Definition clamp (lo hi v : Z) : Z := Z.max lo (Z.min hi v).

(** Modelled from the spec: [vstools.check_variable] is an external
    collaborator; "a stream with unresolved/variable format passed where a
    concrete format is required" fails.  Returns the concrete format. *)
Definition check_variable (clip : VideoNode) : result VideoFormat :=
  match format clip with
  | None => raise VariableFormatError
  | Some fmt =>
      if (width clip =? 0) || (height clip =? 0)
      then raise VariableResolutionError
      else ret fmt
  end.

(** Modelled from the spec: [vstools.get_peak_value], the maximum
    representable sample of the clip's format. *)
Definition get_peak_value (clip : VideoNode) : Z :=
  match format clip with
  | Some fmt => peak_value fmt
  | None => 0
  end.

(** [clip[n]] for an integer [n]: a clip of that one frame; negative
    indices count from the end, as for Python sequences. *)
Definition getitem (clip : VideoNode) (n : Z) : result VideoNode :=
  let i := if n <? 0 then num_frames clip + n else n in
  if (i <? 0) || (num_frames clip <=? i) then raise IndexError
  else match nth_error (frames clip) (Z.to_nat i) with
       | Some f => ret (with_frames clip [f])
       | None => raise IndexError
       end.

(** [clip * n]: the clip repeated [n] times; [n] must be positive. *)
Definition mul (clip : VideoNode) (n : Z) : result VideoNode :=
  if n <=? 0 then raise ValueError
  else ret (with_frames clip (concat (repeat (frames clip) (Z.to_nat n)))).

(** The frame the runtime hands out for index [n]: requests beyond the end
    are served with the last frame. *)
Definition frame_at (clip : VideoNode) (n : nat) : Frame :=
  nth n (frames clip) (last (frames clip) (fun _ _ => 0)).

(** ** Runtime filters ([core.std]), external collaborators

    Modelled from the spec (section 6, "raster-stream primitives").  A
    filter checks its arguments when it is built and refuses the ones it
    cannot serve; such a refusal is [FilterError]. *)

Definition ColorFamily_eqb (a b : ColorFamily) : bool :=
  match a, b with
  | GRAY, GRAY | YUV, YUV | RGB, RGB => true
  | _, _ => false
  end.

(** [v] is a multiple of the subsampling factor [2 ^ ss]. *)
Definition aligned (ss v : Z) : bool := v mod 2 ^ ss =? 0.

(** The format of a clip of constant format and resolution. *)
Definition constant_format (clip : VideoNode) : option VideoFormat :=
  match format clip with
  | Some fmt =>
      if (0 <? width clip) && (0 <? height clip) then Some fmt else None
  | None => None
  end.

(** Same colour family, bit depth and subsampling. *)
Definition same_format (f g : VideoFormat) : bool :=
  ColorFamily_eqb (color_family f) (color_family g)
  && (bits_per_sample f =? bits_per_sample g)
  && (subsampling_w f =? subsampling_w g)
  && (subsampling_h f =? subsampling_h g).

Module std.

Definition INT_MAX : Z := 2147483647.

(** The clip [BlankClip] builds when it accepts its arguments. *)
Definition BlankClip_out (clip : VideoNode) (w h : option Z)
    (fmt : option VideoFormat) (len : option Z) (color : Z) : VideoNode :=
  {| format := match fmt with Some f => Some f | None => format clip end;
     width := match w with Some v => v | None => width clip end;
     height := match h with Some v => v | None => height clip end;
     frames := repeat (fun _ _ => color)
                 (Z.to_nat (match len with
                            | Some v => v
                            | None => num_frames clip
                            end)) |}.

(** Modelled from the spec: blank-frame creation.  Absent arguments are
    taken from [clip].  The runtime refuses a width or height that is not
    positive or not a multiple of the format's subsampling. *)
Definition BlankClip (clip : VideoNode) (w h : option Z)
    (fmt : option VideoFormat) (len : option Z) (color : Z)
    : result VideoNode :=
  let out := BlankClip_out clip w h fmt len color in
  match format out with
  | None => raise FilterError
  | Some f =>
      if (0 <? width out) && (0 <? height out)
         && aligned (subsampling_w f) (width out)
         && aligned (subsampling_h f) (height out)
      then ret out else raise FilterError
  end.

(** The margins [Crop] accepts on a clip of format [fmt]: none negative,
    something left of the frame, each a multiple of the subsampling. *)
Definition Crop_ok (fmt : VideoFormat) (clip : VideoNode)
    (left right top bottom : Z) : bool :=
  (0 <=? left) && (0 <=? right) && (0 <=? top) && (0 <=? bottom)
  && (left + right <? width clip) && (top + bottom <? height clip)
  && aligned (subsampling_w fmt) left && aligned (subsampling_w fmt) right
  && aligned (subsampling_h fmt) top && aligned (subsampling_h fmt) bottom.

Definition Crop_out (clip : VideoNode) (left right top bottom : Z)
    : VideoNode :=
  {| format := format clip;
     width := width clip - left - right;
     height := height clip - top - bottom;
     frames := map (fun (f : Frame) x y => f (x + left) (y + top))
                 (frames clip) |}.

(** Modelled from the spec: crop by four margins, on a clip of constant
    format and resolution. *)
Definition Crop (clip : VideoNode) (left right top bottom : Z)
    : result VideoNode :=
  match constant_format clip with
  | None => raise FilterError
  | Some fmt =>
      if Crop_ok fmt clip left right top bottom
      then ret (Crop_out clip left right top bottom)
      else raise FilterError
  end.

(** The borders [AddBorders] accepts: none negative, each a multiple of
    the subsampling. *)
Definition AddBorders_ok (fmt : VideoFormat) (left right top bottom : Z)
    : bool :=
  (0 <=? left) && (0 <=? right) && (0 <=? top) && (0 <=? bottom)
  && aligned (subsampling_w fmt) left && aligned (subsampling_w fmt) right
  && aligned (subsampling_h fmt) top && aligned (subsampling_h fmt) bottom.

Definition AddBorders_out (clip : VideoNode) (left right top bottom : Z)
    : VideoNode :=
  {| format := format clip;
     width := width clip + left + right;
     height := height clip + top + bottom;
     frames := map (fun (f : Frame) x y =>
                      if (left <=? x) && (x <? left + width clip)
                         && (top <=? y) && (y <? top + height clip)
                      then f (x - left) (y - top) else 0)
                 (frames clip) |}.

(** Modelled from the spec: constant-border padding, the borders filled
    with 0, on a clip of constant format and resolution. *)
Definition AddBorders (clip : VideoNode) (left right top bottom : Z)
    : result VideoNode :=
  match constant_format clip with
  | None => raise FilterError
  | Some fmt =>
      if AddBorders_ok fmt left right top bottom
      then ret (AddBorders_out clip left right top bottom)
      else raise FilterError
  end.

(** Modelled from the spec: frame replication.  [times = 0] loops until
    the frame count reaches [INT_MAX]; [times] is always a frame count
    here, never negative. *)
Definition Loop (clip : VideoNode) (times : Z) : VideoNode :=
  with_frames clip
    (if times =? 0
     then firstn (Z.to_nat INT_MAX)
            (concat (repeat (frames clip) (Z.to_nat INT_MAX)))
     else concat (repeat (frames clip) (Z.to_nat times))).

(** Modelled from the spec: sample inversion, [peak - v]. *)
Definition Invert (clip : VideoNode) : VideoNode :=
  with_frames clip
    (map (fun (f : Frame) x y => get_peak_value clip - f x y) (frames clip)).

(** Modelled from the spec: clamp into the legal pixel range. *)
Definition Limiter (clip : VideoNode) : VideoNode :=
  with_frames clip
    (map (fun (f : Frame) x y => clamp 0 (get_peak_value clip) (f x y))
       (frames clip)).

(** The clips [MaskedMerge] accepts: [clipa] and [clipb] of one constant
    format and resolution; a mask of that resolution and bit depth, of the
    same format or grey. *)
Definition MaskedMerge_ok (clipa clipb mask : VideoNode) : bool :=
  match constant_format clipa, constant_format clipb, constant_format mask
  with
  | Some fa, Some fb, Some fm =>
      same_format fa fb
      && (width clipb =? width clipa) && (height clipb =? height clipa)
      && (width mask =? width clipa) && (height mask =? height clipa)
      && (bits_per_sample fm =? bits_per_sample fa)
      && (same_format fm fa || ColorFamily_eqb (color_family fm) GRAY)
  | _, _, _ => false
  end.

Definition MaskedMerge_out (blend : Z -> Z -> Z -> Z -> Z)
    (clipa clipb mask : VideoNode) : VideoNode :=
  with_frames clipa
    (map (fun n x y =>
            blend (get_peak_value clipa) (frame_at clipa n x y)
              (frame_at clipb n x y) (frame_at mask n x y))
       (seq 0 (length (frames clipa)))).

(** Modelled from the spec: masked merge, frame by frame and sample by
    sample; [blend peak a b m] is the runtime's weighting of [b] over [a]
    by [m / peak]. *)
Definition MaskedMerge (blend : Z -> Z -> Z -> Z -> Z)
    (clipa clipb mask : VideoNode) : result VideoNode :=
  if MaskedMerge_ok clipa clipb mask
  then ret (MaskedMerge_out blend clipa clipb mask)
  else raise FilterError.

End std.

(** ** Expressions ([vsexprtools])

    The sources write expressions as text in reverse Polish notation, for
    instance [f'X {left} < X {right} > or ... ?'].  An expression is kept
    here as the list of its whitespace-separated words. *)

Inductive ExprToken : Type :=
| Tok_X                (* column of the current sample *)
| Tok_Y                (* row of the current sample *)
| Tok_x                (* sample of the first clip *)
| Tok_y                (* sample of the second clip *)
| Tok_num (n : Z)
| Tok_lt
| Tok_gt
| Tok_or
| Tok_ternary          (* [c a b ?] is [a] when [c > 0], else [b] *)
| Tok_max
| Tok_clamp            (* [v lo hi clamp] *)
| Tok_range_max.       (* peak value of the output format *)

Record ExprEnv : Type := mkEnv {
  env_X : Z; env_Y : Z; env_x : Z; env_y : Z; env_range_max : Z
}.

Definition truth (b : bool) : Z := if b then 1 else 0.

Fixpoint eval_rpn (env : ExprEnv) (toks : list ExprToken) (stack : list Z)
    : option Z :=
  match toks with
  | [] => match stack with
          | [v] => Some v
          | _ => None
          end
  | t :: rest =>
      match t, stack with
      | Tok_X, s => eval_rpn env rest (env_X env :: s)
      | Tok_Y, s => eval_rpn env rest (env_Y env :: s)
      | Tok_x, s => eval_rpn env rest (env_x env :: s)
      | Tok_y, s => eval_rpn env rest (env_y env :: s)
      | Tok_num n, s => eval_rpn env rest (n :: s)
      | Tok_range_max, s => eval_rpn env rest (env_range_max env :: s)
      | Tok_lt, b :: a :: s => eval_rpn env rest (truth (a <? b) :: s)
      | Tok_gt, b :: a :: s => eval_rpn env rest (truth (a >? b) :: s)
      | Tok_or, b :: a :: s =>
          eval_rpn env rest (truth ((a >? 0) || (b >? 0)) :: s)
      | Tok_max, b :: a :: s => eval_rpn env rest (Z.max a b :: s)
      | Tok_ternary, b :: a :: c :: s =>
          eval_rpn env rest ((if c >? 0 then a else b) :: s)
      | Tok_clamp, hi :: lo :: v :: s =>
          eval_rpn env rest (clamp lo hi v :: s)
      | _, _ => None
      end
  end.

(** Stack discipline of an expression, checked when the filter is built:
    [Some d] is the stack depth after [toks], started at depth [depth]. *)
Fixpoint stack_depth (toks : list ExprToken) (depth : nat) : option nat :=
  match toks with
  | [] => Some depth
  | t :: rest =>
      match t, depth with
      | (Tok_X | Tok_Y | Tok_x | Tok_y | Tok_num _ | Tok_range_max), d =>
          stack_depth rest (S d)
      | (Tok_lt | Tok_gt | Tok_or | Tok_max), S (S d) =>
          stack_depth rest (S d)
      | (Tok_ternary | Tok_clamp), S (S (S d)) => stack_depth rest (S d)
      | _, _ => None
      end
  end.

(** The evaluator takes clips of constant format and resolution only, all
    of the resolution, colour family and subsampling of the first. *)
Definition same_planes (c0 c : VideoNode) : bool :=
  match constant_format c0, constant_format c with
  | Some f0, Some f =>
      (width c =? width c0) && (height c =? height c0)
      && ColorFamily_eqb (color_family f) (color_family f0)
      && (subsampling_w f =? subsampling_w f0)
      && (subsampling_h f =? subsampling_h f0)
  | _, _ => false
  end.

(** Modelled from the spec: elementwise expression evaluation
    ([vsexprtools.norm_expr]).  The output has the first clip's format,
    resolution and length; results are clamped into the format's range. *)
Definition norm_expr (clips : list VideoNode) (expr : list ExprToken)
    : result VideoNode :=
  match clips with
  | [] => raise ValueError
  | c0 :: others =>
      match format c0, stack_depth expr 0 with
      | None, _ => raise VariableFormatError
      | Some fmt, Some 1%nat =>
          if forallb (same_planes c0) clips then
            let c1 := match others with c :: _ => c | [] => c0 end in
            ret (with_frames c0
                   (map (fun n x y =>
                           let env := {| env_X := x; env_Y := y;
                                         env_x := frame_at c0 n x y;
                                         env_y := frame_at c1 n x y;
                                         env_range_max := peak_value fmt |}
                           in
                           match eval_rpn env expr [] with
                           | Some v => clamp 0 (peak_value fmt) v
                           | None => 0
                           end)
                      (seq 0 (length (frames c0)))))
          else raise ExprError
      | Some _, _ => raise ExprError
      end
  end.

(** [ExprOp.MAX.combine(a, b)]: the expression [x y max] over both clips. *)
Definition ExprOp_MAX_combine (a b : VideoNode) : result VideoNode :=
  norm_expr [a; b] [Tok_x; Tok_y; Tok_max].

(** [ExprOp.clamp(min, max, c)]: the words of [c min max clamp]. *)
Definition ExprOp_clamp (lo hi : Z) (c : list ExprToken) : list ExprToken :=
  c ++ [Tok_num lo; Tok_num hi; Tok_clamp].

(** ** Frame ranges and sequences ([vstools]), external collaborators *)

(** [FrameRangeN]: [None], one frame index, or a pair of optional bounds. *)
Inductive FrameRangeN : Type :=
| RangeNone
| RangeInt (n : Z)
| RangePair (s e : option Z).

(** [FrameRangeN | FrameRangesN | None]: one range or a list of ranges. *)
Inductive FrameRangesArg : Type :=
| OneRange (r : FrameRangeN)
| RangeList (l : list FrameRangeN).

(** Modelled from the spec: a frame range is an "inclusive interval
    [start, end] over frame indices; either bound may be open (start
    defaults to 0, end defaults to last index)".  A range that is [None]
    is the last frame.  Negative bounds are taken from the last index, as
    the sources do for reference frames. *)
Definition normalize_range (clip : VideoNode) (r : FrameRangeN) : Z * Z :=
  let last_frame := num_frames clip - 1 in
  let norm v := if v <? 0 then last_frame + v else v in
  match r with
  | RangeNone => (norm last_frame, norm last_frame)
  | RangeInt n => (norm n, norm n)
  | RangePair s e =>
      (norm (match s with Some v => v | None => 0 end),
       norm (match e with Some v => v | None => last_frame end))
  end.

Definition normalize_ranges (clip : VideoNode) (ranges : FrameRangesArg)
    : list (Z * Z) :=
  match ranges with
  | OneRange r => [normalize_range clip r]
  | RangeList l => map (normalize_range clip) l
  end.

Definition in_range (n : Z) (r : Z * Z) : bool :=
  (fst r <=? n) && (n <=? snd r).

(** A normalized range [replace_ranges] can cut out of the clip: it starts
    at a frame of the clip and is not reversed. *)
Definition range_ok (clip : VideoNode) (r : Z * Z) : bool :=
  (0 <=? fst r) && (fst r <=? snd r) && (fst r <? num_frames clip).

Definition replace_ranges_out (clip_a clip_b : VideoNode)
    (ranges : FrameRangesArg) : VideoNode :=
  with_frames clip_a
    (map (fun n => if existsb (in_range (Z.of_nat n))
                        (normalize_ranges clip_a ranges)
                   then frame_at clip_b n else frame_at clip_a n)
       (seq 0 (length (frames clip_a)))).

(** Modelled from the spec: range-scoped replace, "a stream identical to
    the base outside the listed ranges and equal to the alternate inside
    them".  No range at all ([None] or an empty list) leaves the base; a
    range that starts outside the clip or is reversed is refused. *)
Definition replace_ranges (clip_a clip_b : VideoNode)
    (ranges : FrameRangesArg) : result VideoNode :=
  match ranges with
  | OneRange RangeNone | RangeList [] => ret clip_a
  | _ =>
      if forallb (range_ok clip_a) (normalize_ranges clip_a ranges)
      then ret (replace_ranges_out clip_a clip_b ranges)
      else raise FilterError
  end.

(** Clips that can be spliced: the same format and resolution. *)
Definition same_shape (a b : VideoNode) : bool :=
  match format a, format b with
  | Some fa, Some fb =>
      same_format fa fb
      && (width a =? width b) && (height a =? height b)
  | _, _ => false
  end.

(** [insert_clip(clip, insert, start_frame)] of [vstools]:
    [Splice([insert, clip[insert.num_frames:]])] when [start_frame] is 0;
    else, with [pre = clip[:start_frame]] and
    [insert_diff = start_frame + insert.num_frames - clip.num_frames],
    [Splice([pre, insert])] when [insert_diff] is 0,
    [Splice([pre, insert, clip[insert_diff:]])] when it is negative, and
    a length error when it is positive.  An empty slice is refused. *)
Definition insert_clip (clip insert : VideoNode) (start_frame : Z)
    : result VideoNode :=
  if negb (same_shape clip insert) then raise FilterError
  else if start_frame =? 0 then
    if num_frames clip <=? num_frames insert then raise FilterError
    else ret (with_frames insert
                (frames insert
                 ++ skipn (Z.to_nat (num_frames insert)) (frames clip)))
  else
    let pre_len := if start_frame <? 0
                   then Z.max 0 (num_frames clip + start_frame)
                   else Z.min start_frame (num_frames clip) in
    let insert_diff := start_frame + num_frames insert - num_frames clip in
    if pre_len =? 0 then raise FilterError
    else if insert_diff =? 0 then
      ret (with_frames clip
             (firstn (Z.to_nat pre_len) (frames clip) ++ frames insert))
    else if insert_diff <? 0 then
      ret (with_frames clip
             (firstn (Z.to_nat pre_len) (frames clip)
              ++ frames insert
              ++ skipn (Z.to_nat (num_frames clip + insert_diff))
                   (frames clip)))
    else raise ClipLengthError.

(** [to_arr(val)] for a value that is not a sequence. *)
Definition to_arr {A : Type} (val : A) : list A := [val].

(** Modelled from the spec: [normalize_seq(val, length)] is
    [val += [val[-1]] * (length - len(val)); return val[:length]]. *)
Definition normalize_seq {A : Type} (val : list A) (len : Z)
    : result (list A) :=
  match rev val with
  | [] => raise IndexError
  | lst :: _ =>
      ret (firstn (Z.to_nat len)
             (val ++ repeat lst (Z.to_nat (len - Z.of_nat (length val)))))
  end.

(** Monadic left fold: a [for] loop whose body may raise. *)
Fixpoint foldM {A B : Type} (f : A -> B -> result A) (xs : list B) (a : A)
    : result A :=
  match xs with
  | [] => ret a
  | x :: rest => a' <- f a x ;; foldM f rest a'
  end.

(** ** [vsmasktools/utils.py] *)

Section Utils.

(** Whether the fast expression evaluator is available (a module-level
    flag of [vsexprtools]). *)
Variable aka_expr_available : bool.

(** Blur filters ([vsrgtools]): [box_blur clip radius passes] and
    [gauss_blur clip sigma], opaque to these sources. *)
Variable float : Type.
Variable box_blur : VideoNode -> Z -> Z -> VideoNode.
Variable gauss_blur : VideoNode -> float -> VideoNode.

(** The runtime's sample blend of [std.MaskedMerge]. *)
Variable blend : Z -> Z -> Z -> Z -> Z.

(** [depth clip ref]: bit-depth conversion of [clip] to the format of
    [ref] ([vstools]), opaque to these sources. *)
Variable depth : VideoNode -> VideoNode -> VideoNode.

(** Detectors ([.edge]) and general masks, with their entry points, each
    of which may raise. *)
Variable EdgeDetect : Type.
Variable MaskClass : Type.
Variable GeneralMask : Type.
Variable ensure_obj : string -> result EdgeDetect.
Variable is_RidgeDetect : EdgeDetect -> bool.
Variable ridgemask : EdgeDetect -> VideoNode -> result VideoNode.
Variable edgemask : EdgeDetect -> VideoNode -> result VideoNode.
Variable general_get_mask :
  GeneralMask -> VideoNode -> option VideoNode -> result VideoNode.

(** [replace] is either expression text or an integer. *)
Definition _get_region_expr (clip : VideoNode) (left right top bottom : Z)
    (replace : list ExprToken + Z) (rel : bool) : list ExprToken :=
  let right := right + 1 in
  let bottom := bottom + 1 in
  let replace := match replace with
                 | inr n => [Tok_x; Tok_num n]
                 | inl s => s
                 end in
  if rel then
    [Tok_X; Tok_num left; Tok_lt; Tok_X; Tok_num right; Tok_gt; Tok_or;
     Tok_Y; Tok_num top; Tok_lt; Tok_Y; Tok_num bottom; Tok_gt; Tok_or;
     Tok_or] ++ replace ++ [Tok_ternary]
  else
    [Tok_X; Tok_num left; Tok_lt;
     Tok_X; Tok_num (width clip - right); Tok_gt; Tok_or;
     Tok_Y; Tok_num top; Tok_lt;
     Tok_Y; Tok_num (height clip - bottom); Tok_gt; Tok_or;
     Tok_or] ++ replace ++ [Tok_ternary].

Definition region_rel_mask (clip : VideoNode) (left right top bottom : Z)
    : result VideoNode :=
  if aka_expr_available then
    norm_expr [clip]
      (_get_region_expr clip left right top bottom (inr 0) false)
  else
    cropped <- std.Crop clip left right top bottom ;;
    std.AddBorders cropped left right top bottom.

Definition squaremask (clip : VideoNode) (w h offset_x offset_y : Z)
    (invert : bool) : result VideoNode :=
  fmt <- check_variable clip ;;
  let mask_format := replace_gray fmt in
  if (offset_x + w >? width clip) || (offset_y + h >? height clip) then
    raise (CustomValueError "mask exceeds clip size!")
  else
    mask <-
      (if aka_expr_available then
         base_clip <-
           std.BlankClip clip None None (Some mask_format) (Some 1) 0 ;;
         norm_expr [base_clip]
           (_get_region_expr clip
              offset_x (width clip - w - offset_x)
              offset_y (height clip - h - offset_y)
              (inl (if invert then [Tok_range_max; Tok_x]
                    else [Tok_x; Tok_range_max]))
              false)
       else
         base_clip <-
           std.BlankClip clip (Some w) (Some h) (Some mask_format) (Some 1)
             (get_peak_value clip) ;;
         mask <-
           std.AddBorders base_clip
             offset_x (width clip - w - offset_x)
             offset_y (height clip - h - offset_y) ;;
         ret (if invert then std.Invert mask else mask)) ;;
    if num_frames clip =? 1 then ret mask
    else ret (std.Loop mask (num_frames clip)).

(** [blur_sigma: int | float | None] *)
Inductive BlurSigma : Type :=
| NoBlur
| IntSigma (n : Z)
| FloatSigma (f : float).

Definition replace_squaremask (clipa clipb : VideoNode)
    (mask_params : Z * Z * Z * Z) (ranges : FrameRangesArg)
    (blur_sigma : BlurSigma) (invert show_mask : bool) : result VideoNode :=
  _ <- check_variable clipa ;;
  _ <- check_variable clipb ;;
  let '(w, h, offset_x, offset_y) := mask_params in
  clipb0 <- getitem clipb 0 ;;
  mask <- squaremask clipb0 w h offset_x offset_y invert ;;
  let ranges := match ranges with
                | OneRange RangeNone => RangeList [RangePair None None]
                | _ => ranges
                end in
  let mask := match blur_sigma with
              | IntSigma n => box_blur mask n 1
              | FloatSigma f => gauss_blur mask f
              | NoBlur => mask
              end in
  let mask := std.Loop mask (num_frames clipa) in
  if show_mask then ret mask
  else
    merge <- std.MaskedMerge blend clipa clipb mask ;;
    replace_ranges clipa merge ranges.

Definition freeze_replace_squaremask (mask insert : VideoNode)
    (mask_params : Z * Z * Z * Z) (frame : Z) (frame_range : Z * Z)
    : result VideoNode :=
  let '(start, end_) := frame_range in
  mask_frame <- getitem mask frame ;;
  insert_frame <- getitem insert frame ;;
  masked_insert <-
    replace_squaremask mask_frame insert_frame mask_params
      (OneRange RangeNone) NoBlur false false ;;
  block <- mul masked_insert (end_ - start + 1) ;;
  insert_clip mask block start.

(** [GenericMaskT]: a detector name, a class, a detector, a general mask,
    a function of [(clip, ref)], or a clip. *)
Inductive GenericMaskT : Type :=
| MaskStr (name : string)
| MaskType (cls : MaskClass)
| MaskEdge (detector : EdgeDetect)
| MaskGeneral (m : GeneralMask)
| MaskFunc (f : VideoNode -> VideoNode -> VideoNode)
| MaskNode (c : VideoNode).

(** [mask()] for a class. *)
Variable instantiate : MaskClass -> result GenericMaskT.

Definition normalize_mask (mask : GenericMaskT) (clip : VideoNode)
    (ref : option VideoNode) (ridge : bool) : result VideoNode :=
  mask <- match mask with
          | MaskStr name => d <- ensure_obj name ;; ret (MaskEdge d)
          | _ => ret mask
          end ;;
  mask <- match mask with
          | MaskType cls => instantiate cls
          | _ => ret mask
          end ;;
  mask <- match mask with
          | MaskEdge d =>
              if is_RidgeDetect d && ridge
              then c <- ridgemask d clip ;; ret (MaskNode c)
              else ret mask
          | _ => ret mask
          end ;;
  mask <- match mask with
          | MaskEdge d => c <- edgemask d clip ;; ret (MaskNode c)
          | _ => ret mask
          end ;;
  mask <- match mask with
          | MaskGeneral m =>
              c <- general_get_mask m clip ref ;; ret (MaskNode c)
          | _ => ret mask
          end ;;
  mask <- match mask with
          | MaskFunc f =>
              match ref with
              | None =>
                  raise (CustomValueError
                           "This mask function requires a ref to be specified!")
              | Some r => ret (MaskNode (f clip r))
              end
          | _ => ret mask
          end ;;
  match mask with
  | MaskNode c => ret (depth c clip)
  | _ => raise TypeError
  end.

End Utils.

Arguments NoBlur {float}.
Arguments IntSigma {float} n.
Arguments replace_squaremask aka_expr_available {float}.
Arguments freeze_replace_squaremask aka_expr_available {float}.

Arguments MaskFunc {EdgeDetect MaskClass GeneralMask} f.
Arguments MaskNode {EdgeDetect MaskClass GeneralMask} c.
Arguments normalize_mask depth {EdgeDetect MaskClass GeneralMask}.

(** *** [region_abs_mask] *)

(** Monadic map: a list built element by element, any of which may
    raise. *)
Fixpoint mapM {A B : Type} (f : A -> result B) (xs : list A)
    : result (list B) :=
  match xs with
  | [] => ret []
  | x :: rest => b <- f x ;; bs <- mapM f rest ;; ret (b :: bs)
  end.

(** The window [CropAbs] accepts within a frame of [fw] by [fh] samples:
    not empty, inside the frame, placed and sized in multiples of the
    subsampling. *)
Definition CropAbs_ok (fmt : VideoFormat) (w h left top fw fh : Z) : bool :=
  (0 <? w) && (0 <? h) && (0 <=? left) && (0 <=? top)
  && (left + w <=? fw) && (top + h <=? fh)
  && aligned (subsampling_w fmt) left && aligned (subsampling_w fmt) w
  && aligned (subsampling_h fmt) top && aligned (subsampling_h fmt) h.

Definition std_CropAbs_out (clip : VideoNode) (w h left top : Z)
    : VideoNode :=
  {| format := format clip;
     width := w;
     height := h;
     frames := map (fun (f : Frame) x y => f (x + left) (y + top))
                 (frames clip) |}.

(** Modelled from the spec: crop to a window of [w] by [h] samples whose
    corner is at column [left], row [top] ([std.CropAbs]); [fw], [fh] is
    the resolution of the frame the window is cut from. *)
Definition std_CropAbs (clip : VideoNode) (w h left top fw fh : Z)
    : result VideoNode :=
  match format clip with
  | None => raise FilterError
  | Some fmt =>
      if CropAbs_ok fmt w h left top fw fh
      then ret (std_CropAbs_out clip w h left top)
      else raise FilterError
  end.

Section RegionAbs.

Variable aka_expr_available : bool.

(** The resolution of frame [n] of a clip of variable resolution; only the
    runtime knows it ([f.width], [f.height] inside [FrameEval]). *)
Variable frame_size : VideoNode -> nat -> Z * Z.

(** The inner function [_crop(w, h)] of [region_abs_mask], with the
    variables it closes over written out; [fw], [fh] are its [w], [h]. *)
Definition _crop (clip : VideoNode) (w h left top : Z) (fw fh : Z)
    : result VideoNode :=
  cropped <- std_CropAbs clip w h left top fw fh ;;
  std.AddBorders cropped left (fw - w - left) top (fh - h - top).

(** [clip.std.FrameEval(lambda f, n: _crop(f.width, f.height), clip)]:
    frame [n] of the result is frame [n] of the clip built for frame [n];
    a failure while a frame is built is the failure of the result. *)
Definition region_abs_mask (clip : VideoNode) (w h left top : Z)
    : result VideoNode :=
  if (width clip =? 0) || (height clip =? 0) then
    if aka_expr_available then
      norm_expr [clip]
        (_get_region_expr clip left (left + w) top (top + h) (inr 0) true)
    else
      fs <- mapM (fun n =>
                    c <- _crop clip w h left top
                           (fst (frame_size clip n))
                           (snd (frame_size clip n)) ;;
                    ret (frame_at c n))
              (seq 0 (length (frames clip))) ;;
      ret (with_frames clip fs)
  else
    region_rel_mask aka_expr_available clip
      left (width clip - w - left) top (height clip - h - top).

End RegionAbs.

(** ** [vsmasks/abstract.py] *)

Module BoundingBox.

Record t : Type := mk {
  pos : Z * Z;
  size : Z * Z;
  invert : bool
}.

Definition get_mask (aka_expr_available : bool) (self : t)
    (ref : VideoNode) : result VideoNode :=
  squaremask aka_expr_available ref
    (fst (size self)) (snd (size self)) (fst (pos self)) (snd (pos self))
    (invert self).

End BoundingBox.

Module DeferredMask.

(** The configuration of a deferred mask; [_mask] is the per-pixel
    algorithm a subclass supplies. *)
Record t : Type := mk {
  ranges : list FrameRangeN;
  bound : option BoundingBox.t;
  refframes : list (option Z);
  blur : bool;
  _mask : VideoNode -> VideoNode -> VideoNode
}.

(** [refframes: int | list[int | None] | None] *)
Inductive RefframesArg : Type :=
| RefNone
| RefInt (n : Z)
| RefList (l : list (option Z)).

Definition len {A : Type} (l : list A) : Z := Z.of_nat (length l).

Definition __init__ (mask_impl : VideoNode -> VideoNode -> VideoNode)
    (ranges_arg : FrameRangesArg) (bound_arg : option BoundingBox.t)
    (blur_arg : bool) (refframes_arg : RefframesArg) : result t :=
  let self_ranges := match ranges_arg with
                     | RangeList l => l
                     | OneRange RangeNone => [RangePair (Some 0) None]
                     | OneRange r => [r]
                     end in
  self_refframes <-
    match refframes_arg with
    | RefNone => ret []
    | RefList l => ret l
    | RefInt n => normalize_seq (to_arr (Some n)) (len self_ranges)
    end ;;
  if (len self_refframes >? 0)
     && negb (len self_refframes =? len self_ranges)
  then raise (FramesLengthError
                "Received reference frame and range list size mismatch!")
  else ret {| ranges := self_ranges; bound := bound_arg;
              refframes := self_refframes; blur := blur_arg;
              _mask := mask_impl |}.

Section GetMask.

Variable aka_expr_available : bool.
Variable box_blur : VideoNode -> Z -> Z -> VideoNode.

(** [depth(clip, ref, range_out=ColorRange.FULL,
    range_in=ColorRange.FULL)], opaque to these sources. *)
Variable depth_full : VideoNode -> VideoNode -> VideoNode.

(** The body of the loop over [zip(self.ranges, self.refframes)]. *)
Definition accumulate (self : t) (clip ref : VideoNode) (hm : VideoNode)
    (pair : FrameRangeN * option Z) : result VideoNode :=
  let '(ran, rf) := pair in
  let rf := match rf with
            | None => num_frames ref - 1
            | Some v => if v <? 0 then num_frames ref - 1 + v else v
            end in
  clip_rf <- getitem clip rf ;;
  ref_rf <- getitem ref rf ;;
  let mask :=
    std.Loop (depth_full (_mask self clip_rf ref_rf) clip)
      (num_frames hm) in
  combined <- ExprOp_MAX_combine hm mask ;;
  replace_ranges hm combined (OneRange ran).

Definition get_mask (self : t) (clip ref : VideoNode)
    : result VideoNode :=
  _ <- check_variable clip ;;
  ref_format <- check_variable ref ;;
  bm <- match bound self with
        | Some b =>
            bm <- BoundingBox.get_mask aka_expr_available b ref ;;
            ret (Some (if blur self then box_blur bm 5 5 else bm))
        | None => ret None
        end ;;
  hm <-
    (if len (refframes self) =? 0 then
       hm <-
         std.BlankClip ref None None (Some (replace_gray ref_format))
           None 0 ;;
       foldM (accumulate self clip ref)
         (combine (ranges self) (refframes self)) hm
     else
       ret (depth_full (_mask self clip ref) clip)) ;;
  match bm with
  | Some bm =>
      norm_expr [hm; bm]
        ([Tok_y] ++ ExprOp_clamp 0 (get_peak_value hm) [Tok_x]
         ++ [Tok_num 0; Tok_ternary])
  | None => ret (std.Limiter hm)
  end.

End GetMask.

End DeferredMask.

(** * Definitions used in the statements *)

(** ** The rectangle of [squaremask] *)

Definition in_rect (w h offset_x offset_y x y : Z) : Prop :=
  offset_x <= x < offset_x + w /\ offset_y <= y < offset_y + h.

Definition in_rectb (w h offset_x offset_y x y : Z) : bool :=
  (offset_x <=? x) && (x <? offset_x + w)
  && (offset_y <=? y) && (y <? offset_y + h).

(** The frame both execution strategies of [squaremask] compute. *)
Definition rect_frame (peak w h ox oy : Z) (invert : bool) : Frame :=
  fun x y => if xorb (in_rectb w h ox oy x y) invert then peak else 0.

(** ** Regions and ranges *)

(** Column [x], row [y] lies within the four margins of [clip]. *)
Definition in_margins (clip : VideoNode) (left right top bottom x y : Z)
    : bool :=
  (left <=? x) && (x <? width clip - right)
  && (top <=? y) && (y <? height clip - bottom).

(** The ranges [replace_squaremask] hands to [replace_ranges]: [None]
    stands for the whole clip. *)
Definition effective_ranges (ranges : FrameRangesArg) : FrameRangesArg :=
  match ranges with
  | OneRange RangeNone => RangeList [RangePair None None]
  | _ => ranges
  end.

(** A range of frames of [clip], written without negative bounds and not
    reversed; [None] is the last frame. *)
Definition range_within (clip : VideoNode) (r : FrameRangeN) : Prop :=
  match r with
  | RangeNone => 0 < num_frames clip
  | RangeInt n => 0 <= n < num_frames clip
  | RangePair s e =>
      0 <= match s with Some v => v | None => 0 end
      /\ match s with Some v => v | None => 0 end
         <= match e with Some v => v | None => num_frames clip - 1 end
      /\ match e with Some v => v | None => num_frames clip - 1 end
         < num_frames clip
  end.

Definition ranges_within (clip : VideoNode) (ranges : FrameRangesArg)
    : Prop :=
  match ranges with
  | OneRange r => range_within clip r
  | RangeList l => Forall (range_within clip) l
  end.

(** Frame [n] of [clip] lies in one of [ranges]. *)
Definition frame_in_ranges (clip : VideoNode) (ranges : FrameRangesArg)
    (n : nat) : bool :=
  existsb (in_range (Z.of_nat n)) (normalize_ranges clip ranges).

(** ** Concrete clips and collaborators for runs *)

(** A 64x64 clip of three 8-bit frames, for concrete runs. *)
Definition fmt8 : VideoFormat :=
  {| color_family := YUV; bits_per_sample := 8;
     subsampling_w := 1; subsampling_h := 1 |}.

Definition clip64 : VideoNode :=
  {| format := Some fmt8; width := 64; height := 64;
     frames := [fun x y => x + y; fun x y => x; fun x y => y] |}.

(** Single-plane 8-bit clips: two of 64x64 and three frames with
    different samples, and one of variable resolution. *)
Definition gray8 : VideoFormat := replace_gray fmt8.

Definition gray64 : VideoNode :=
  {| format := Some gray8; width := 64; height := 64;
     frames := [fun x y => x + y; fun x y => x; fun x y => y] |}.

Definition gray64b : VideoNode :=
  {| format := Some gray8; width := 64; height := 64;
     frames := [fun x y => 200; fun x y => 100 + x; fun x y => 2 * y] |}.

Definition variable_clip : VideoNode :=
  {| format := Some gray8; width := 0; height := 0;
     frames := [fun x y => x + y; fun x y => x * y] |}.


(** A per-pixel algorithm that masks every sample at the 8-bit peak (a
    single-plane mask of the resolution and length of [ref]), blurs and a
    depth conversion that change nothing, and a linear blend. *)
Definition white_mask (clip ref : VideoNode) : VideoNode :=
  {| format := option_map replace_gray (format ref);
     width := width ref; height := height ref;
     frames := map (fun _ => fun _ _ => 255) (frames ref) |}.

(** A per-pixel algorithm that masks with the clip's own frame. *)
Definition own_frame_mask (clip ref : VideoNode) : VideoNode := clip.

Definition no_blur (clip : VideoNode) (radius passes : Z) : VideoNode :=
  clip.

Definition same_depth (clip ref : VideoNode) : VideoNode := clip.

Definition no_gauss_blur (clip : VideoNode) (sigma : unit) : VideoNode :=
  clip.

Definition linear_blend (peak a b m : Z) : Z := a + (b - a) * m / peak.

(** ** The accumulation of [DeferredMask.get_mask] *)

Module DeferredMaskAux.

Import DeferredMask.

(** The same configuration with another list of ranges. *)
Definition set_ranges (self : t) (rs : list FrameRangeN) : t :=
  {| ranges := rs; bound := bound self; refframes := refframes self;
     blur := blur self; _mask := _mask self |}.

(** Two ranges of a clip share no frame. *)
Definition ranges_disjoint (clip : VideoNode) (r1 r2 : FrameRangeN)
    : Prop :=
  snd (normalize_range clip r1) < fst (normalize_range clip r2)
  \/ snd (normalize_range clip r2) < fst (normalize_range clip r1).

(** The primary path as the specification words it: one
    [(range, refIndex)] pair for each range, the refIndex unset, handed
    to the loop body of the sources. *)
Definition accumulate_per_range
    (depth_full : VideoNode -> VideoNode -> VideoNode) (self : t)
    (clip ref : VideoNode) (ref_format : VideoFormat) : result VideoNode :=
  hm <- std.BlankClip ref None None (Some (replace_gray ref_format)) None 0 ;;
  foldM (accumulate depth_full self clip ref)
    (map (fun ran => (ran, None)) (ranges self)) hm.

(** The reference frame index of a pair, resolved as the loop body does. *)
Definition resolve_rf (ref : VideoNode) (rf : option Z) : Z :=
  match rf with
  | None => num_frames ref - 1
  | Some v => if v <? 0 then num_frames ref - 1 + v else v
  end.

(** Frame [n] of [clip] lies in the one range [ran] handed to
    [replace_ranges]. *)
Definition covers (clip : VideoNode) (ran : FrameRangeN) (n : nat) : bool :=
  match ran with
  | RangeNone => false
  | _ => in_range (Z.of_nat n) (normalize_range clip ran)
  end.

(** What one turn of the loop makes of the accumulator [hm] and the looped
    mask [M]: [replace_ranges(hm, ExprOp.MAX.combine(hm, M), ran)]. *)
Definition max_into (fmt : VideoFormat) (hm M : VideoNode)
    (ran : FrameRangeN) : VideoNode :=
  match ran with
  | RangeNone => hm
  | _ =>
      replace_ranges_out hm
        (with_frames hm
           (map (fun n x y =>
                   clamp 0 (peak_value fmt)
                     (Z.max (frame_at hm n x y) (frame_at M n x y)))
              (seq 0 (length (frames hm)))))
        (OneRange ran)
  end.

(** One turn of the loop can run on the accumulator [hm] with the mask
    [m]: the evaluator takes the pair, and the range can be cut out. *)
Definition turn_ok (hm m : VideoNode) (ran : FrameRangeN) : bool :=
  same_planes hm hm && same_planes hm m
  && match ran with
     | RangeNone => true
     | _ => range_ok hm (normalize_range hm ran)
     end.

(** The mask [get_mask] assembles before gating or limiting it (its [hm]),
    the loop over [zip(self.ranges, self.refframes)] being empty when
    [refframes] is. *)
Definition assembled (depth_full : VideoNode -> VideoNode -> VideoNode)
    (self : t) (clip ref : VideoNode) (ref_format : VideoFormat)
    : result VideoNode :=
  match refframes self with
  | [] => std.BlankClip ref None None (Some (replace_gray ref_format)) None 0
  | _ :: _ => ret (depth_full (_mask self clip ref) clip)
  end.

(** [n] is an index [clip[n]] accepts. *)
Definition valid_index (clip : VideoNode) (n : Z) : Prop :=
  - num_frames clip <= n < num_frames clip.

(** Concrete configurations for runs: a blank accumulator for [clip64], a
    box, and a deferred mask with that box and one reference frame. *)
Definition blank64 : VideoNode :=
  std.BlankClip_out clip64 None None (Some (replace_gray fmt8)) None 0.

Definition box64 : BoundingBox.t := BoundingBox.mk (5, 7) (10, 20) false.

Definition boxed_mask : t :=
  mk [RangeNone] (Some box64) [Some 0] false white_mask.

End DeferredMaskAux.

(** * Properties *)

(** ** Helper lemmas on lists of frames *)

Lemma concat_repeat_singleton {A : Type} (a : A) (n : nat) :
  concat (repeat [a] n) = repeat a n.
Proof.
  induction n as [|n IH]; simpl; [reflexivity | now rewrite IH].
Qed.

Lemma nth_error_repeat_inv {A : Type} (a b : A) (n k : nat) :
  nth_error (repeat a n) k = Some b -> b = a.
Proof.
  intros H. apply nth_error_In in H. now apply repeat_spec in H.
Qed.

Lemma Loop_single_frame (clip : VideoNode) (f : Frame) (times : Z) :
  frames clip = [f] -> times <> 0 ->
  frames (std.Loop clip times) = repeat f (Z.to_nat times).
Proof.
  intros Hf Ht. unfold std.Loop, with_frames. cbn [frames].
  destruct (times =? 0) eqn:E; [apply Z.eqb_eq in E; contradiction|].
  rewrite Hf. apply concat_repeat_singleton.
Qed.

Lemma peak_value_pos (fmt : VideoFormat) :
  0 < bits_per_sample fmt -> 0 < peak_value fmt.
Proof.
  intros H. unfold peak_value.
  assert (2 ^ 1 <= 2 ^ bits_per_sample fmt) by (apply Z.pow_le_mono_r; lia).
  change (2 ^ 1) with 2 in *. lia.
Qed.

Lemma check_variable_format (clip : VideoNode) (fmt : VideoFormat) :
  check_variable clip = inr fmt -> format clip = Some fmt.
Proof.
  unfold check_variable. destruct (format clip); [|discriminate].
  destruct (_ || _); [discriminate|]. now intros [= ->].
Qed.

(** ** The rectangle test of [squaremask] *)

Lemma in_rectb_spec w h ox oy x y :
  in_rectb w h ox oy x y = true <-> in_rect w h ox oy x y.
Proof.
  unfold in_rectb, in_rect.
  rewrite !andb_true_iff, !Z.leb_le, !Z.ltb_lt. lia.
Qed.

Lemma truth_gtb (b : bool) : (truth b >? 0) = b.
Proof. now destruct b. Qed.

Ltac split_comparisons :=
  repeat match goal with
         | |- context [?a <? ?b] => destruct (Z.ltb_spec a b)
         | |- context [?a >? ?b] => destruct (Z.gtb_spec a b)
         | |- context [?a <=? ?b] => destruct (Z.leb_spec a b)
         end.

Lemma region_expr_eval (clip : VideoNode) (w h ox oy : Z) (invert : bool)
    (env : ExprEnv) :
  env_x env = 0 ->
  eval_rpn env
    (_get_region_expr clip ox (width clip - w - ox) oy (height clip - h - oy)
       (inl (if invert then [Tok_range_max; Tok_x]
             else [Tok_x; Tok_range_max])) false) []
  = Some (rect_frame (env_range_max env) w h ox oy invert
            (env_X env) (env_Y env)).
Proof.
  intros Hx. unfold _get_region_expr, rect_frame, in_rectb.
  destruct invert; simpl; rewrite Hx, !truth_gtb;
    split_comparisons; simpl; try reflexivity; lia.
Qed.

(** ** What the runtime filters accept *)

Lemma aligned_0 (v : Z) : aligned 0 v = true.
Proof. unfold aligned. change (2 ^ 0) with 1. now rewrite Z.mod_1_r. Qed.

Lemma ColorFamily_eqb_refl (c : ColorFamily) : ColorFamily_eqb c c = true.
Proof. now destruct c. Qed.

Lemma same_format_refl (f : VideoFormat) : same_format f f = true.
Proof.
  unfold same_format. now rewrite ColorFamily_eqb_refl, !Z.eqb_refl.
Qed.

(** Solves [b = true] for a conjunction of comparisons that hold. *)
Ltac bool_true :=
  repeat rewrite andb_true_iff; repeat split;
  try apply aligned_0; try apply ColorFamily_eqb_refl;
  try apply same_format_refl;
  try (apply Z.ltb_lt; lia); try (apply Z.leb_le; lia);
  try (apply Z.eqb_eq; lia); try reflexivity.

Lemma constant_format_some (clip : VideoNode) (fmt : VideoFormat) :
  format clip = Some fmt -> 0 < width clip -> 0 < height clip ->
  constant_format clip = Some fmt.
Proof.
  intros Hf Hw Hh. unfold constant_format. rewrite Hf.
  replace ((0 <? width clip) && (0 <? height clip)) with true
    by (symmetry; bool_true).
  reflexivity.
Qed.

Lemma constant_format_inv (clip : VideoNode) (fmt : VideoFormat) :
  constant_format clip = Some fmt ->
  format clip = Some fmt /\ 0 < width clip /\ 0 < height clip.
Proof.
  unfold constant_format. destruct (format clip) as [f|]; [|discriminate].
  destruct ((0 <? width clip) && (0 <? height clip)) eqn:E; [|discriminate].
  intros [= ->]. apply andb_true_iff in E. rewrite !Z.ltb_lt in E.
  now repeat split.
Qed.

(** The evaluator accepts one clip of constant format and resolution. *)
Lemma same_planes_refl (clip : VideoNode) (fmt : VideoFormat) :
  format clip = Some fmt -> 0 < width clip -> 0 < height clip ->
  same_planes clip clip = true.
Proof.
  intros Hf Hw Hh. unfold same_planes.
  rewrite (constant_format_some clip fmt Hf Hw Hh). bool_true.
Qed.

Lemma ret_inv {A : Type} (a b : A) : ret a = inr b -> a = b.
Proof. intros H. unfold ret in H. congruence. Qed.

Section SquaremaskProperties.

Variable aka_expr_available : bool.

Lemma no_excess (w h ox oy cw ch : Z) :
  (ox + w >? cw) || (oy + h >? ch) = false <-> ox + w <= cw /\ oy + h <= ch.
Proof.
  rewrite orb_false_iff, !Z.gtb_ltb, !Z.ltb_ge. tauto.
Qed.

(** Every mask [squaremask] returns is a single-plane mask of the clip's
    resolution and length, each frame being [rect_frame]; a mask is
    returned only for a rectangle within the clip. *)
Lemma squaremask_returned (clip : VideoNode) (fmt : VideoFormat)
    (w h ox oy : Z) (invert : bool) (mask : VideoNode) :
  check_variable clip = inr fmt ->
  frames clip <> [] ->
  0 < bits_per_sample fmt ->
  squaremask aka_expr_available clip w h ox oy invert = inr mask ->
  ox + w <= width clip /\ oy + h <= height clip
  /\ format mask = Some (replace_gray fmt)
  /\ width mask = width clip /\ height mask = height clip
  /\ exists g : Frame,
       frames mask = repeat g (length (frames clip))
       /\ forall x y, g x y = rect_frame (peak_value fmt) w h ox oy invert x y.
Proof.
  intros Hchk Hne Hbits.
  pose proof (check_variable_format _ _ Hchk) as Hfmt.
  pose proof (peak_value_pos fmt Hbits) as Hpeak.
  unfold squaremask. rewrite Hchk. cbn [bind].
  destruct ((ox + w >? width clip) || (oy + h >? height clip)) eqn:Ex;
    [discriminate|].
  apply no_excess in Ex. destruct Ex as [Hw Hh].
  assert (Hlen : num_frames clip <> 0).
  { unfold num_frames. destruct (frames clip); [congruence | cbn; lia]. }
  assert (Hnat : Z.to_nat (num_frames clip) = length (frames clip))
    by (unfold num_frames; apply Nat2Z.id).
  match goal with
  | |- bind ?P _ = _ -> _ =>
      assert (Hone : forall m, P = inr m ->
                format m = Some (replace_gray fmt)
                /\ width m = width clip /\ height m = height clip
                /\ exists g : Frame,
                     frames m = [g]
                     /\ forall x y,
                          g x y
                          = rect_frame (peak_value fmt) w h ox oy invert x y);
      [|destruct P as [e|m]; [discriminate|]; specialize (Hone m eq_refl)]
  end.
  { intros m. destruct aka_expr_available.
    - unfold std.BlankClip. cbn [std.BlankClip_out format width height].
      destruct (_ && _); [|discriminate]. cbn [bind ret].
      unfold norm_expr. cbn [std.BlankClip_out format].
      replace (stack_depth _ 0) with (Some 1%nat)
        by (destruct invert; reflexivity).
      destruct (forallb _ _); [|discriminate].
      intros Hm. apply ret_inv in Hm. subst m.
      cbn [with_frames format width height frames std.BlankClip_out].
      repeat (split; [reflexivity|]).
      eexists. split; [reflexivity|].
      intros x y. cbv beta. rewrite region_expr_eval by reflexivity.
      cbn [env_range_max env_X env_Y].
      change (peak_value (replace_gray fmt)) with (peak_value fmt).
      unfold rect_frame, clamp.
      destruct (xorb _ _); lia.
    - unfold std.BlankClip. cbn [std.BlankClip_out format width height].
      destruct (_ && _); [|discriminate]. cbn [bind ret].
      unfold std.AddBorders. destruct (constant_format _); [|discriminate].
      destruct (std.AddBorders_ok _ _ _ _ _); [|discriminate].
      cbn [bind ret]. unfold get_peak_value. rewrite Hfmt.
      destruct invert; intros [= <-];
        cbn [std.Invert std.AddBorders_out std.BlankClip_out with_frames
               format width height frames];
        (split; [reflexivity|]); (split; [lia|]); (split; [lia|]);
        eexists; (split; [reflexivity|]); intros x y.
      + unfold get_peak_value.
        cbn [format std.AddBorders_out std.BlankClip_out].
        change (peak_value (replace_gray fmt)) with (peak_value fmt).
        unfold rect_frame, in_rectb.
        destruct (_ && _); cbn [xorb negb]; lia.
      + unfold rect_frame, in_rectb.
        destruct (_ && _); reflexivity. }
  destruct Hone as (Hmf & Hmw & Hmh & g & Hfr & Hg). cbn [bind].
  destruct (num_frames clip =? 1) eqn:E1; intros [= <-].
  - apply Z.eqb_eq in E1.
    repeat (split; [assumption|]). exists g. split; [|exact Hg].
    rewrite Hfr, <- Hnat, E1. reflexivity.
  - cbn [std.Loop with_frames format width height].
    repeat (split; [assumption|]). exists g. split; [|exact Hg].
    rewrite (Loop_single_frame m g) by assumption. now rewrite Hnat.
Qed.

(** For a rectangle that is not empty, not placed at negative offsets and
    within the clip, [squaremask] returns a mask. *)
Lemma squaremask_returns (clip : VideoNode) (fmt : VideoFormat)
    (w h ox oy : Z) (invert : bool) :
  check_variable clip = inr fmt ->
  0 < w -> 0 < h -> 0 <= ox -> 0 <= oy ->
  ox + w <= width clip -> oy + h <= height clip ->
  exists mask : VideoNode,
    squaremask aka_expr_available clip w h ox oy invert = inr mask.
Proof.
  intros Hchk Hpw Hph Hox Hoy Hw Hh.
  unfold squaremask. rewrite Hchk. cbn [bind].
  replace ((ox + w >? width clip) || (oy + h >? height clip)) with false
    by (symmetry; now apply no_excess).
  destruct aka_expr_available.
  - unfold std.BlankClip. cbn [std.BlankClip_out format width height].
    replace ((0 <? width clip) && (0 <? height clip)
             && aligned (subsampling_w (replace_gray fmt)) (width clip)
             && aligned (subsampling_h (replace_gray fmt)) (height clip))
      with true by (symmetry; bool_true).
    cbn [bind ret]. unfold norm_expr. cbn [std.BlankClip_out format].
    replace (stack_depth _ 0) with (Some 1%nat)
      by (destruct invert; reflexivity).
    cbn [forallb].
    rewrite (same_planes_refl _ (replace_gray fmt))
      by (cbn [std.BlankClip_out format width height];
          reflexivity || lia).
    cbn [andb bind ret].
    destruct (num_frames clip =? 1); eexists; reflexivity.
  - unfold std.BlankClip. cbn [std.BlankClip_out format width height].
    replace ((0 <? w) && (0 <? h)
             && aligned (subsampling_w (replace_gray fmt)) w
             && aligned (subsampling_h (replace_gray fmt)) h)
      with true by (symmetry; bool_true).
    cbn [bind ret]. unfold std.AddBorders.
    rewrite (constant_format_some _ (replace_gray fmt))
      by (cbn [std.BlankClip_out format width height];
          reflexivity || lia).
    replace (std.AddBorders_ok (replace_gray fmt) ox (width clip - w - ox)
               oy (height clip - h - oy)) with true
      by (symmetry; unfold std.AddBorders_ok; bool_true).
    cbn [bind ret].
    destruct (num_frames clip =? 1); eexists; reflexivity.
Qed.

(** C3: within the clip's size, every pixel of every frame of a mask that
    [squaremask] returns is the peak value exactly inside the rectangle
    [offset_x <= x < offset_x + w], [offset_y <= y < offset_y + h] and 0
    exactly outside it; with [invert] the two values are swapped; the
    mask has as many frames as the clip.  For a valid rectangle (not
    empty, no negative offset) a mask is returned. *)
Theorem squaremask_pixels (clip : VideoNode) (fmt : VideoFormat)
    (w h ox oy : Z) (invert : bool) :
  check_variable clip = inr fmt ->
  frames clip <> [] ->
  0 < bits_per_sample fmt ->
  ox + w <= width clip -> oy + h <= height clip ->
  (forall mask : VideoNode,
     squaremask aka_expr_available clip w h ox oy invert = inr mask ->
     length (frames mask) = length (frames clip)
     /\ forall (n : nat) (f : Frame) (x y : Z),
          nth_error (frames mask) n = Some f ->
          0 <= x < width clip -> 0 <= y < height clip ->
          if invert
          then (f x y = 0 <-> in_rect w h ox oy x y)
               /\ (f x y = peak_value fmt <-> ~ in_rect w h ox oy x y)
          else (f x y = peak_value fmt <-> in_rect w h ox oy x y)
               /\ (f x y = 0 <-> ~ in_rect w h ox oy x y))
  /\ (0 < w -> 0 < h -> 0 <= ox -> 0 <= oy ->
      exists mask : VideoNode,
        squaremask aka_expr_available clip w h ox oy invert = inr mask).
Proof.
  intros Hchk Hne Hbits Hw Hh. split.
  - intros mask Heq.
    destruct (squaremask_returned clip fmt w h ox oy invert mask
                Hchk Hne Hbits Heq)
      as (_ & _ & _ & _ & _ & g & Hfr & Hg).
    pose proof (peak_value_pos fmt Hbits) as Hpeak.
    split.
    + rewrite Hfr. apply repeat_length.
    + intros n f x y Hn _ _. rewrite Hfr in Hn.
      apply nth_error_repeat_inv in Hn. subst f. rewrite Hg.
      unfold rect_frame.
      pose proof (in_rectb_spec w h ox oy x y) as Hspec.
      destruct (in_rectb w h ox oy x y).
      * assert (Hin : in_rect w h ox oy x y) by now apply Hspec.
        destruct invert; cbn [xorb negb]; repeat split; intros;
          try reflexivity; try assumption; try contradiction;
          unfold in_rect in *; lia.
      * assert (Hout : ~ in_rect w h ox oy x y)
          by (intros Hin; apply Hspec in Hin; discriminate).
        destruct invert; cbn [xorb negb]; repeat split; intros;
          try reflexivity; try assumption; try contradiction;
          unfold in_rect in *; lia.
  - intros Hpw Hph Hox Hoy.
    now apply (squaremask_returns clip fmt).
Qed.

Lemma squaremask_exceeds (clip : VideoNode)
    (fmt : VideoFormat) (w h ox oy : Z) (invert : bool) :
  check_variable clip = inr fmt ->
  ox + w > width clip \/ oy + h > height clip ->
  squaremask aka_expr_available clip w h ox oy invert
  = inl (CustomValueError "mask exceeds clip size!").
Proof.
  intros Hchk Hex. unfold squaremask. rewrite Hchk. cbn [bind].
  replace ((ox + w >? width clip) || (oy + h >? height clip)) with true;
    [reflexivity|].
  symmetry. rewrite !Z.gtb_ltb. apply orb_true_iff.
  destruct Hex; [left | right]; apply Z.ltb_lt; lia.
Qed.

(** Within the clip's size [squaremask] never raises the size error. *)
Lemma squaremask_no_size_error (clip : VideoNode)
    (fmt : VideoFormat) (w h ox oy : Z) (invert : bool) :
  check_variable clip = inr fmt ->
  ox + w <= width clip -> oy + h <= height clip ->
  squaremask aka_expr_available clip w h ox oy invert
  <> inl (CustomValueError "mask exceeds clip size!").
Proof.
  intros Hchk Hw Hh. unfold squaremask. rewrite Hchk. cbn [bind].
  replace ((ox + w >? width clip) || (oy + h >? height clip)) with false
    by (symmetry; now apply no_excess).
  destruct aka_expr_available.
  - unfold std.BlankClip. cbn [std.BlankClip_out format width height].
    destruct (_ && _); [|discriminate]. cbn [bind ret].
    unfold norm_expr. cbn [std.BlankClip_out format].
    destruct (stack_depth _ 0) as [[|[|d]]|]; try discriminate.
    destruct (forallb _ _); [|discriminate]. cbn [bind ret].
    destruct (num_frames clip =? 1); discriminate.
  - unfold std.BlankClip. cbn [std.BlankClip_out format width height].
    destruct (_ && _); [|discriminate]. cbn [bind ret].
    unfold std.AddBorders. destruct (constant_format _); [|discriminate].
    destruct (std.AddBorders_ok _ _ _ _ _); [|discriminate].
    cbn [bind ret]. destruct (num_frames clip =? 1); discriminate.
Qed.


End SquaremaskProperties.

Lemma squaremask_pixels_witness :
  (forall mask : VideoNode,
     squaremask false clip64 10 10 5 5 false = inr mask ->
     length (frames mask) = length (frames clip64)
     /\ forall (n : nat) (f : Frame) (x y : Z),
          nth_error (frames mask) n = Some f ->
          0 <= x < width clip64 -> 0 <= y < height clip64 ->
          (f x y = peak_value fmt8 <-> in_rect 10 10 5 5 x y)
          /\ (f x y = 0 <-> ~ in_rect 10 10 5 5 x y))
  /\ (0 < 10 -> 0 < 10 -> 0 <= 5 -> 0 <= 5 ->
      exists mask : VideoNode,
        squaremask false clip64 10 10 5 5 false = inr mask).
Proof.
  apply (squaremask_pixels false clip64 fmt8 10 10 5 5 false);
    [reflexivity | discriminate | reflexivity | simpl; lia | simpl; lia].
Defined.



(** ** [region_rel_mask] with no margins *)

Lemma nth_error_map_seq {A : Type} (F : nat -> A) (len n : nat) (a : A) :
  nth_error (map F (seq 0 len)) n = Some a -> a = F n /\ (n < len)%nat.
Proof.
  intros H. rewrite nth_error_map in H.
  destruct (nth_error (seq 0 len) n) as [k|] eqn:E; [|discriminate].
  injection H as <-.
  assert (Hn : (n < len)%nat).
  { rewrite <- (length_seq len 0). apply nth_error_Some. congruence. }
  split; [|exact Hn].
  rewrite (nth_error_nth' _ 0%nat) in E by (now rewrite length_seq).
  rewrite seq_nth in E by exact Hn. injection E as <-. reflexivity.
Qed.

Lemma aligned_zero (ss : Z) : aligned ss 0 = true.
Proof. unfold aligned. now rewrite Zmod_0_l. Qed.

(** No margins are margins [Crop] and [AddBorders] accept. *)
Lemma Crop_ok_zero (fmt : VideoFormat) (clip : VideoNode) :
  0 < width clip -> 0 < height clip ->
  std.Crop_ok fmt clip 0 0 0 0 = true.
Proof.
  intros Hw Hh. unfold std.Crop_ok. rewrite !aligned_zero.
  bool_true.
Qed.

Lemma AddBorders_ok_zero (fmt : VideoFormat) :
  std.AddBorders_ok fmt 0 0 0 0 = true.
Proof. unfold std.AddBorders_ok. now rewrite !aligned_zero. Qed.

(** The fallback strategy (crop, then pad) with no margins, on a clip of
    constant format and resolution, keeps every sample of every frame,
    and the resolution. *)
Lemma region_rel_mask_fallback_identity (clip : VideoNode)
    (fmt : VideoFormat) :
  format clip = Some fmt -> 0 < width clip -> 0 < height clip ->
  exists out : VideoNode,
    region_rel_mask false clip 0 0 0 0 = inr out
    /\ format out = format clip
    /\ width out = width clip /\ height out = height clip
    /\ length (frames out) = length (frames clip)
    /\ forall (n : nat) (g : Frame) (x y : Z),
         nth_error (frames out) n = Some g ->
         0 <= x < width clip -> 0 <= y < height clip ->
         exists f : Frame, nth_error (frames clip) n = Some f /\ g x y = f x y.
Proof.
  intros Hfmt Hw Hh. unfold region_rel_mask, std.Crop.
  rewrite (constant_format_some clip fmt Hfmt Hw Hh).
  rewrite Crop_ok_zero by assumption. cbn [bind ret].
  unfold std.AddBorders.
  rewrite (constant_format_some _ fmt)
    by (cbn [std.Crop_out format width height]; assumption || lia).
  rewrite AddBorders_ok_zero. cbn [bind ret].
  eexists. split; [reflexivity|].
  cbn [std.AddBorders_out std.Crop_out format width height frames].
  repeat split; try lia.
  - now rewrite !length_map.
  - intros n g x y Hn Hx Hy. rewrite map_map, nth_error_map in Hn.
    destruct (nth_error (frames clip) n) as [f|]; [|discriminate].
    injection Hn as <-. exists f. split; [reflexivity|].
    match goal with
    | |- (if ?c then _ else _) = _ => replace c with true
    end.
    + now rewrite !Z.sub_0_r, !Z.add_0_r.
    + symmetry. rewrite !andb_true_iff, !Z.leb_le, !Z.ltb_lt. lia.
Qed.

(** The expression strategy with no margins, on a clip of constant format
    and resolution, writes 0 over every sample of every frame: the
    selector [x 0 ?] keeps the source sample outside the region and puts
    0 inside it. *)
Lemma region_rel_mask_expr_zero (clip : VideoNode) (fmt : VideoFormat) :
  format clip = Some fmt -> 0 < width clip -> 0 < height clip ->
  exists out : VideoNode,
    region_rel_mask true clip 0 0 0 0 = inr out
    /\ length (frames out) = length (frames clip)
    /\ forall (n : nat) (g : Frame) (x y : Z),
         nth_error (frames out) n = Some g ->
         0 <= x < width clip -> 0 <= y < height clip ->
         g x y = 0.
Proof.
  intros Hfmt Hw Hh. unfold region_rel_mask, norm_expr. rewrite Hfmt.
  cbn [_get_region_expr stack_depth app forallb].
  rewrite (same_planes_refl clip fmt Hfmt Hw Hh). cbn [andb].
  eexists. split; [reflexivity|]. cbn [with_frames frames]. split.
  - now rewrite length_map, length_seq.
  - intros n g x y Hn Hx Hy.
    apply nth_error_map_seq in Hn. destruct Hn as [-> _].
    cbn [eval_rpn env_X env_Y env_x]. rewrite !truth_gtb.
    replace (x <? 0) with false by (symmetry; apply Z.ltb_ge; lia).
    replace (y <? 0) with false by (symmetry; apply Z.ltb_ge; lia).
    replace (x >? width clip - (0 + 1)) with false
      by (symmetry; rewrite Z.gtb_ltb; apply Z.ltb_ge; lia).
    replace (y >? height clip - (0 + 1)) with false
      by (symmetry; rewrite Z.gtb_ltb; apply Z.ltb_ge; lia).
    cbn. unfold clamp. lia.
Qed.

(** C2 (failing input): on the expression strategy, [region_rel_mask] with
    all margins 0 is not the identity.  The sample of [clip64] at frame 0,
    column 1, row 0 is 1; the output has 0 there. *)
Theorem region_rel_mask_expr_not_identity :
  exists out : VideoNode,
    region_rel_mask true clip64 0 0 0 0 = inr out
    /\ frame_at clip64 0 1 0 = 1
    /\ frame_at out 0 1 0 = 0.
Proof.
  eexists. split; [reflexivity|]. split; reflexivity.
Qed.

(** ** Construction of a [DeferredMask] *)

Lemma normalize_seq_scalar {A : Type} (x : A) (k : nat) :
  normalize_seq (to_arr x) (Z.of_nat k) = inr (repeat x k).
Proof.
  unfold normalize_seq, to_arr. cbn [rev app length]. unfold ret. f_equal.
  destruct k as [|k].
  - reflexivity.
  - replace (Z.to_nat (Z.of_nat (S k) - Z.of_nat 1)) with k by lia.
    rewrite Nat2Z.id.
    change ([x] ++ repeat x k) with (repeat x (S k)).
    rewrite <- (repeat_length x (S k)) at 1. apply firstn_all.
Qed.

Lemma mismatch_spec {A B : Type} (rf : list A) (rs : list B) :
  (DeferredMask.len rf >? 0)
  && negb (DeferredMask.len rf =? DeferredMask.len rs) = true
  <-> (rf <> [] /\ length rf <> length rs).
Proof.
  unfold DeferredMask.len.
  rewrite andb_true_iff, negb_true_iff, Z.gtb_ltb, Z.ltb_lt, Z.eqb_neq.
  destruct rf; cbn [length]; split; intros [H1 H2]; split;
    try congruence; lia.
Qed.

(** C5: with the ranges and the reference frames both given as lists,
    construction raises the length-mismatch error if and only if the
    reference-frame list is non-empty and its length differs from the
    length of the range list; otherwise the configuration holds both lists
    as given. *)
Theorem init_length_mismatch_iff
    (mask_impl : VideoNode -> VideoNode -> VideoNode)
    (rs : list FrameRangeN) (bound : option BoundingBox.t) (blur : bool)
    (rf : list (option Z)) :
  (DeferredMask.__init__ mask_impl (RangeList rs) bound blur
     (DeferredMask.RefList rf)
   = inl (FramesLengthError
            "Received reference frame and range list size mismatch!")
   <-> (rf <> [] /\ length rf <> length rs))
  /\ (~ (rf <> [] /\ length rf <> length rs) ->
      DeferredMask.__init__ mask_impl (RangeList rs) bound blur
        (DeferredMask.RefList rf)
      = inr (DeferredMask.mk rs bound rf blur mask_impl)).
Proof.
  unfold DeferredMask.__init__. cbn [bind ret].
  pose proof (mismatch_spec rf rs) as Hspec.
  destruct ((DeferredMask.len rf >? 0)
            && negb (DeferredMask.len rf =? DeferredMask.len rs)).
  - split; [split|].
    + intros _. now apply Hspec.
    + reflexivity.
    + intros Hn. exfalso. apply Hn. now apply Hspec.
  - split; [split|].
    + discriminate.
    + intros H. apply Hspec in H. discriminate.
    + reflexivity.
Qed.

(** C9: with a single integer as reference frame, construction never
    raises: the integer is repeated once per range, so the reference-frame
    list has the length of the range list, whatever the ranges argument. *)
Theorem init_scalar_refframes_broadcast
    (mask_impl : VideoNode -> VideoNode -> VideoNode)
    (ranges_arg : FrameRangesArg) (bound : option BoundingBox.t)
    (blur : bool) (n : Z) :
  exists self : DeferredMask.t,
    DeferredMask.__init__ mask_impl ranges_arg bound blur
      (DeferredMask.RefInt n) = inr self
    /\ DeferredMask.ranges self
       = match ranges_arg with
         | RangeList l => l
         | OneRange RangeNone => [RangePair (Some 0) None]
         | OneRange r => [r]
         end
    /\ DeferredMask.refframes self
       = repeat (Some n) (length (DeferredMask.ranges self))
    /\ length (DeferredMask.refframes self)
       = length (DeferredMask.ranges self).
Proof.
  unfold DeferredMask.__init__, DeferredMask.len.
  rewrite normalize_seq_scalar. cbn [bind].
  rewrite repeat_length, Z.eqb_refl, andb_false_r.
  eexists. split; [reflexivity|].
  cbn [DeferredMask.ranges DeferredMask.refframes].
  repeat split. apply repeat_length.
Qed.

(** ** [normalize_mask] on a function *)

Section NormalizeMaskProperties.

Variable depth : VideoNode -> VideoNode -> VideoNode.
Variables EdgeDetect MaskClass GeneralMask : Type.
Variable ensure_obj : string -> result EdgeDetect.
Variable is_RidgeDetect : EdgeDetect -> bool.
Variables ridgemask edgemask : EdgeDetect -> VideoNode -> result VideoNode.
Variable general_get_mask :
  GeneralMask -> VideoNode -> option VideoNode -> result VideoNode.
Variable instantiate :
  MaskClass -> result (GenericMaskT EdgeDetect MaskClass GeneralMask).

(** C8: for a function as mask source, [normalize_mask] without a
    reference clip raises the missing-reference error; with a reference
    clip it calls the function on [(clip, ref)], and returns that mask
    converted to the clip's depth. *)
Theorem normalize_mask_callable
    (f : VideoNode -> VideoNode -> VideoNode) (clip : VideoNode)
    (ridge : bool) :
  normalize_mask depth ensure_obj is_RidgeDetect ridgemask edgemask
    general_get_mask instantiate (MaskFunc f) clip None ridge
  = inl (CustomValueError
           "This mask function requires a ref to be specified!")
  /\ forall ref : VideoNode,
       normalize_mask depth ensure_obj is_RidgeDetect ridgemask edgemask
         general_get_mask instantiate (MaskFunc f) clip (Some ref) ridge
       = inr (depth (f clip ref) clip).
Proof.
  split; [reflexivity | intros ref; reflexivity].
Qed.

End NormalizeMaskProperties.

(** ** [replace_squaremask] and [freeze_replace_squaremask] *)

Section ReplaceSquaremaskProperties.

Variable aka_expr_available : bool.
Variable float : Type.
Variable box_blur : VideoNode -> Z -> Z -> VideoNode.
Variable gauss_blur : VideoNode -> float -> VideoNode.
Variable blend : Z -> Z -> Z -> Z -> Z.

(** With [show_mask], what [replace_squaremask] returns: the rectangle
    mask of [clipb]'s first frame, blurred as asked, looped to the length
    of [clipa]. *)
Lemma replace_squaremask_show_mask (clipa clipb : VideoNode)
    (w h ox oy : Z) (ranges : FrameRangesArg) (blur_sigma : BlurSigma float)
    (invert : bool) :
  replace_squaremask aka_expr_available box_blur gauss_blur blend
    clipa clipb (w, h, ox, oy) ranges blur_sigma invert true
  = (_ <- check_variable clipa ;;
     _ <- check_variable clipb ;;
     clipb0 <- getitem clipb 0 ;;
     mask <- squaremask aka_expr_available clipb0 w h ox oy invert ;;
     ret (std.Loop
            match blur_sigma with
            | IntSigma n => box_blur mask n 1
            | FloatSigma _ f => gauss_blur mask f
            | NoBlur => mask
            end (num_frames clipa))).
Proof. reflexivity. Qed.

(** C10: with [show_mask], the result of [replace_squaremask] (the mask
    or the error raised) is the same for every value of [ranges]. *)
Theorem replace_squaremask_show_mask_ignores_ranges
    (clipa clipb : VideoNode) (mask_params : Z * Z * Z * Z)
    (ranges1 ranges2 : FrameRangesArg) (blur_sigma : BlurSigma float)
    (invert : bool) :
  replace_squaremask aka_expr_available box_blur gauss_blur blend
    clipa clipb mask_params ranges1 blur_sigma invert true
  = replace_squaremask aka_expr_available box_blur gauss_blur blend
      clipa clipb mask_params ranges2 blur_sigma invert true.
Proof.
  destruct mask_params as [[[w h] ox] oy].
  now rewrite !replace_squaremask_show_mask.
Qed.






End ReplaceSquaremaskProperties.


(** A run of [freeze_replace_squaremask] on two different clips: frames 0
    and 1 of the output hold the sample of [gray64b]'s frame 1 inside the
    rectangle and of [gray64]'s frame 1 outside it; frame 2 is the mask
    clip's. *)
Lemma freeze_replace_squaremask_run :
  exists out : VideoNode,
    freeze_replace_squaremask true no_blur no_gauss_blur linear_blend
      gray64 gray64b (10, 10, 5, 5) 1 (0, 1) = inr out
    /\ length (frames out) = 3%nat
    /\ frame_at out 0 7 7 = 107 /\ frame_at out 1 7 7 = 107
    /\ frame_at out 0 20 7 = 20 /\ frame_at out 1 20 7 = 20
    /\ frame_at out 2 7 9 = 9.
Proof.
  eexists. split; [reflexivity|]. repeat split.
Qed.

(** ** [DeferredMask.get_mask] *)

Module DeferredMaskProperties.

Import DeferredMask DeferredMaskAux.

Lemma nth_error_map_seq_lt {A : Type} (F : nat -> A) (len n : nat) :
  (n < len)%nat -> nth_error (map F (seq 0 len)) n = Some (F n).
Proof.
  intros Hn. rewrite nth_error_map.
  rewrite (nth_error_nth' _ 0%nat) by (now rewrite length_seq).
  now rewrite seq_nth.
Qed.

Section WithRuntime.

Variable aka_expr_available : bool.
Variable box_blur : VideoNode -> Z -> Z -> VideoNode.
Variable depth_full : VideoNode -> VideoNode -> VideoNode.

(** With an empty [refframes], [zip(self.ranges, self.refframes)] is
    empty: the loop body never runs, the accumulator stays blank, and
    neither the ranges nor [_mask] reach the result. *)
Lemma get_mask_empty_refframes (self : t) (clip ref : VideoNode) :
  refframes self = [] ->
  get_mask aka_expr_available box_blur depth_full self clip ref
  = (_ <- check_variable clip ;;
     ref_format <- check_variable ref ;;
     bm <- match bound self with
           | Some b =>
               bm <- BoundingBox.get_mask aka_expr_available b ref ;;
               ret (Some (if blur self then box_blur bm 5 5 else bm))
           | None => ret None
           end ;;
     hm <- std.BlankClip ref None None (Some (replace_gray ref_format))
             None 0 ;;
     match bm with
     | Some bm =>
         norm_expr [hm; bm]
           ([Tok_y] ++ ExprOp_clamp 0 (get_peak_value hm) [Tok_x]
            ++ [Tok_num 0; Tok_ternary])
     | None => ret (std.Limiter hm)
     end).
Proof.
  intros Hrf. unfold get_mask. rewrite Hrf, combine_nil.
  destruct (check_variable clip); [reflexivity|]. cbn [bind].
  destruct (check_variable ref); [reflexivity|]. cbn [bind].
  destruct (match bound self with Some _ => _ | None => _ end);
    [reflexivity|].
  cbn [bind len length Z.of_nat Z.eqb foldM].
  destruct (std.BlankClip _ _ _ _ _ _); reflexivity.
Qed.

(** The result of [get_mask] does not depend on the list of ranges. *)
Lemma get_mask_ranges_irrelevant (self : t) (rs : list FrameRangeN)
    (clip ref : VideoNode) :
  get_mask aka_expr_available box_blur depth_full (set_ranges self rs)
    clip ref
  = get_mask aka_expr_available box_blur depth_full self clip ref.
Proof.
  destruct (refframes self) as [|rf rest] eqn:Hrf.
  - rewrite !get_mask_empty_refframes by assumption. reflexivity.
  - unfold get_mask, set_ranges, len.
    cbn [ranges bound refframes blur _mask]. rewrite Hrf.
    reflexivity.
Qed.

(** *** The loop body: max-combine within one range *)

Lemma normalize_range_num_frames (c1 c2 : VideoNode) (r : FrameRangeN) :
  num_frames c1 = num_frames c2 ->
  normalize_range c1 r = normalize_range c2 r.
Proof.
  intros H. unfold normalize_range. now rewrite H.
Qed.

Lemma frame_at_nth_error (c : VideoNode) (n : nat) (f : Frame) :
  nth_error (frames c) n = Some f -> frame_at c n = f.
Proof.
  intros H. unfold frame_at. now apply nth_error_nth.
Qed.

Lemma covers_num_frames (c1 c2 : VideoNode) (r : FrameRangeN) (n : nat) :
  num_frames c1 = num_frames c2 -> covers c1 r n = covers c2 r n.
Proof.
  intros H. unfold covers.
  now rewrite (normalize_range_num_frames c1 c2 r H).
Qed.

(** Whether a turn can run depends on the accumulator through its format,
    resolution and length only. *)
Lemma turn_ok_shape (hm hm' m : VideoNode) (ran : FrameRangeN) :
  format hm' = format hm ->
  width hm' = width hm -> height hm' = height hm ->
  num_frames hm' = num_frames hm ->
  turn_ok hm' m ran = turn_ok hm m ran.
Proof.
  intros F W H N.
  unfold turn_ok, same_planes, constant_format, range_ok.
  rewrite F, W, H, N, (normalize_range_num_frames hm' hm ran N).
  reflexivity.
Qed.

(** One turn of the loop: when both reference frames exist and the turn
    can run, the accumulator becomes [max_into]. *)
Lemma accumulate_max_into (self : t) (clip ref hm c g : VideoNode)
    (fmt : VideoFormat) (ran : FrameRangeN) (rf : option Z) :
  format hm = Some fmt ->
  getitem clip (resolve_rf ref rf) = inr c ->
  getitem ref (resolve_rf ref rf) = inr g ->
  turn_ok hm (std.Loop (depth_full (_mask self c g) clip) (num_frames hm))
    ran = true ->
  accumulate depth_full self clip ref hm (ran, rf)
  = inr (max_into fmt hm
           (std.Loop (depth_full (_mask self c g) clip) (num_frames hm)) ran).
Proof.
  intros Hfmt Hc Hg Hok. unfold accumulate, resolve_rf in *.
  rewrite Hc. cbn [bind]. rewrite Hg. cbn [bind].
  unfold turn_ok in Hok. rewrite !andb_true_iff in Hok.
  destruct Hok as [[P1 P2] Hr].
  unfold ExprOp_MAX_combine, norm_expr. rewrite Hfmt.
  cbn [stack_depth forallb]. rewrite P1, P2. cbn [andb bind ret].
  unfold replace_ranges, max_into.
  destruct ran; [reflexivity | |];
    cbn [normalize_ranges forallb]; rewrite Hr; reflexivity.
Qed.

(** When the turn cannot run, it fails. *)
Lemma accumulate_turn_refused (self : t) (clip ref hm c g : VideoNode)
    (fmt : VideoFormat) (ran : FrameRangeN) (rf : option Z) :
  format hm = Some fmt ->
  getitem clip (resolve_rf ref rf) = inr c ->
  getitem ref (resolve_rf ref rf) = inr g ->
  turn_ok hm (std.Loop (depth_full (_mask self c g) clip) (num_frames hm))
    ran = false ->
  exists e : Exn, accumulate depth_full self clip ref hm (ran, rf) = inl e.
Proof.
  intros Hfmt Hc Hg Hok. unfold accumulate, resolve_rf in *.
  rewrite Hc. cbn [bind]. rewrite Hg. cbn [bind].
  unfold turn_ok in Hok.
  unfold ExprOp_MAX_combine, norm_expr. rewrite Hfmt.
  cbn [stack_depth forallb]. rewrite andb_true_r.
  destruct (same_planes hm hm && same_planes hm _);
    [|eexists; reflexivity].
  cbn [andb] in Hok. cbn [bind ret]. unfold replace_ranges.
  destruct ran; [discriminate | |];
    cbn [normalize_ranges forallb]; rewrite Hok; eexists; reflexivity.
Qed.

Lemma max_into_shape (fmt : VideoFormat) (hm M : VideoNode)
    (ran : FrameRangeN) :
  format (max_into fmt hm M ran) = format hm
  /\ width (max_into fmt hm M ran) = width hm
  /\ height (max_into fmt hm M ran) = height hm
  /\ num_frames (max_into fmt hm M ran) = num_frames hm.
Proof.
  unfold max_into, replace_ranges_out, num_frames.
  destruct ran; cbn [with_frames format width height frames];
    repeat split; now rewrite ?length_map, ?length_seq.
Qed.

(** Within the range a frame of [max_into] is the clamped maximum of the
    accumulator and the mask; outside it, the accumulator's frame. *)
Lemma max_into_frames (fmt : VideoFormat) (hm M : VideoNode)
    (ran : FrameRangeN) (n : nat) (f : Frame) :
  nth_error (frames (max_into fmt hm M ran)) n = Some f ->
  exists h : Frame,
    nth_error (frames hm) n = Some h
    /\ forall x y,
         f x y = if covers hm ran n
                 then clamp 0 (peak_value fmt)
                        (Z.max (h x y) (frame_at M n x y))
                 else h x y.
Proof.
  unfold max_into, replace_ranges_out, covers.
  destruct ran as [|k|s e].
  - intros H. exists f. split; [exact H | reflexivity].
  - cbn [with_frames frames normalize_ranges existsb]. intros H.
    apply nth_error_map_seq in H. destruct H as [-> Hn].
    destruct (nth_error (frames hm) n) as [h|] eqn:Eh;
      [|apply nth_error_None in Eh; lia].
    exists h. split; [reflexivity|]. intros x y. rewrite orb_false_r.
    destruct (in_range _ _).
    + unfold frame_at at 1. cbn [with_frames frames].
      erewrite nth_error_nth by (apply nth_error_map_seq_lt; exact Hn).
      cbv beta. now rewrite (frame_at_nth_error hm n h Eh).
    + now rewrite (frame_at_nth_error hm n h Eh).
  - cbn [with_frames frames normalize_ranges existsb]. intros H.
    apply nth_error_map_seq in H. destruct H as [-> Hn].
    destruct (nth_error (frames hm) n) as [h|] eqn:Eh;
      [|apply nth_error_None in Eh; lia].
    exists h. split; [reflexivity|]. intros x y. rewrite orb_false_r.
    destruct (in_range _ _).
    + unfold frame_at at 1. cbn [with_frames frames].
      erewrite nth_error_nth by (apply nth_error_map_seq_lt; exact Hn).
      cbv beta. now rewrite (frame_at_nth_error hm n h Eh).
    + now rewrite (frame_at_nth_error hm n h Eh).
Qed.

Lemma accumulate_no_clip_frame (self : t) (clip ref hm : VideoNode)
    (ran : FrameRangeN) (rf : option Z) (e : Exn) :
  getitem clip (resolve_rf ref rf) = inl e ->
  accumulate depth_full self clip ref hm (ran, rf) = inl e.
Proof.
  intros H. unfold accumulate, resolve_rf in *. now rewrite H.
Qed.

Lemma accumulate_no_ref_frame (self : t) (clip ref hm c : VideoNode)
    (ran : FrameRangeN) (rf : option Z) (e : Exn) :
  getitem clip (resolve_rf ref rf) = inr c ->
  getitem ref (resolve_rf ref rf) = inl e ->
  accumulate depth_full self clip ref hm (ran, rf) = inl e.
Proof.
  intros Hc H. unfold accumulate, resolve_rf in *.
  rewrite Hc. cbn [bind]. now rewrite H.
Qed.

Lemma covers_in_range (clip : VideoNode) (ran : FrameRangeN) (n : nat) :
  covers clip ran n = true ->
  fst (normalize_range clip ran) <= Z.of_nat n
  <= snd (normalize_range clip ran).
Proof.
  unfold covers, in_range.
  destruct ran; try discriminate;
    rewrite andb_true_iff, !Z.leb_le; tauto.
Qed.

(** Two turns of the loop over disjoint ranges, each with its own
    reference frame, can be swapped: both orders fail, or both give
    accumulators of the same shape with the same samples (max-combine over
    disjoint domains commutes). *)
Lemma accumulate_disjoint_order (self : t) (clip ref hm : VideoNode)
    (fmt : VideoFormat) (r1 r2 : FrameRangeN) (rf1 rf2 : option Z) :
  format hm = Some fmt ->
  ranges_disjoint hm r1 r2 ->
  match foldM (accumulate depth_full self clip ref) [(r1, rf1); (r2, rf2)] hm,
        foldM (accumulate depth_full self clip ref) [(r2, rf2); (r1, rf1)] hm
  with
  | inr a, inr b =>
      format a = format b /\ width a = width b /\ height a = height b
      /\ num_frames a = num_frames b
      /\ forall (n : nat) (fa fb : Frame) (x y : Z),
           nth_error (frames a) n = Some fa ->
           nth_error (frames b) n = Some fb ->
           fa x y = fb x y
  | inl _, inl _ => True
  | _, _ => False
  end.
Proof.
  intros Hfmt Hdis. cbn [foldM].
  destruct (getitem clip (resolve_rf ref rf1)) as [e|c1] eqn:Hc1.
  { rewrite (accumulate_no_clip_frame self clip ref hm r1 rf1 e Hc1).
    cbn [bind].
    destruct (accumulate depth_full self clip ref hm (r2, rf2)); cbn [bind];
      [exact I|].
    now rewrite (accumulate_no_clip_frame self clip ref _ r1 rf1 e Hc1). }
  destruct (getitem ref (resolve_rf ref rf1)) as [e|g1] eqn:Hg1.
  { rewrite (accumulate_no_ref_frame self clip ref hm c1 r1 rf1 e Hc1 Hg1).
    cbn [bind].
    destruct (accumulate depth_full self clip ref hm (r2, rf2)); cbn [bind];
      [exact I|].
    now rewrite (accumulate_no_ref_frame self clip ref _ c1 r1 rf1 e Hc1 Hg1). }
  destruct (getitem clip (resolve_rf ref rf2)) as [e|c2] eqn:Hc2.
  { rewrite (accumulate_no_clip_frame self clip ref hm r2 rf2 e Hc2).
    cbn [bind].
    destruct (accumulate depth_full self clip ref hm (r1, rf1)); cbn [bind];
      [exact I|].
    now rewrite (accumulate_no_clip_frame self clip ref _ r2 rf2 e Hc2). }
  destruct (getitem ref (resolve_rf ref rf2)) as [e|g2] eqn:Hg2.
  { rewrite (accumulate_no_ref_frame self clip ref hm c2 r2 rf2 e Hc2 Hg2).
    cbn [bind].
    destruct (accumulate depth_full self clip ref hm (r1, rf1)); cbn [bind];
      [exact I|].
    now rewrite (accumulate_no_ref_frame self clip ref _ c2 r2 rf2 e Hc2 Hg2). }
  set (M1 := std.Loop (depth_full (_mask self c1 g1) clip) (num_frames hm)).
  set (M2 := std.Loop (depth_full (_mask self c2 g2) clip) (num_frames hm)).
  destruct (max_into_shape fmt hm M1 r1) as (F1 & W1 & H1 & N1).
  destruct (max_into_shape fmt hm M2 r2) as (F2 & W2 & H2 & N2).
  assert (T12 : turn_ok (max_into fmt hm M1 r1) M2 r2 = turn_ok hm M2 r2)
    by now apply turn_ok_shape.
  assert (T21 : turn_ok (max_into fmt hm M2 r2) M1 r1 = turn_ok hm M1 r1)
    by now apply turn_ok_shape.
  assert (Hfmt1 : format (max_into fmt hm M1 r1) = Some fmt) by congruence.
  assert (Hfmt2 : format (max_into fmt hm M2 r2) = Some fmt) by congruence.
  destruct (turn_ok hm M1 r1) eqn:T1; destruct (turn_ok hm M2 r2) eqn:T2.
  - rewrite (accumulate_max_into self clip ref hm c1 g1 fmt r1 rf1
               Hfmt Hc1 Hg1 T1).
    rewrite (accumulate_max_into self clip ref hm c2 g2 fmt r2 rf2
               Hfmt Hc2 Hg2 T2).
    cbn [bind]. fold M1 M2.
    rewrite (accumulate_max_into self clip ref _ c2 g2 fmt r2 rf2
               Hfmt1 Hc2 Hg2) by (rewrite N1; exact T12).
    rewrite (accumulate_max_into self clip ref _ c1 g1 fmt r1 rf1
               Hfmt2 Hc1 Hg1) by (rewrite N2; exact T21).
    rewrite N1, N2. fold M1 M2.
    destruct (max_into_shape fmt (max_into fmt hm M1 r1) M2 r2)
      as (F12 & W12 & H12 & N12).
    destruct (max_into_shape fmt (max_into fmt hm M2 r2) M1 r1)
      as (F21 & W21 & H21 & N21).
    repeat split; try congruence.
    intros n fa fb x y Ha Hb.
    apply max_into_frames in Ha. destruct Ha as (h1 & Hh1 & Ea).
    apply max_into_frames in Hh1. destruct Hh1 as (h & Hh & E1).
    apply max_into_frames in Hb. destruct Hb as (h2 & Hh2 & Eb).
    apply max_into_frames in Hh2. destruct Hh2 as (h' & Hh' & E2).
    assert (h' = h) by congruence. subst h'.
    rewrite Ea, E1, Eb, E2.
    rewrite (covers_num_frames _ hm r2 n N1),
      (covers_num_frames _ hm r1 n N2).
    destruct (covers hm r1 n) eqn:C1, (covers hm r2 n) eqn:C2;
      try reflexivity.
    apply covers_in_range in C1, C2. unfold ranges_disjoint in Hdis. lia.
  - rewrite (accumulate_max_into self clip ref hm c1 g1 fmt r1 rf1
               Hfmt Hc1 Hg1 T1).
    cbn [bind]. fold M1.
    destruct (accumulate_turn_refused self clip ref hm c2 g2 fmt r2 rf2
                Hfmt Hc2 Hg2 T2) as [e2 ->].
    destruct (accumulate_turn_refused self clip ref _ c2 g2 fmt r2 rf2
                Hfmt1 Hc2 Hg2) as [e2' ->];
      [rewrite N1; exact T12|].
    exact I.
  - rewrite (accumulate_max_into self clip ref hm c2 g2 fmt r2 rf2
               Hfmt Hc2 Hg2 T2).
    cbn [bind]. fold M2.
    destruct (accumulate_turn_refused self clip ref hm c1 g1 fmt r1 rf1
                Hfmt Hc1 Hg1 T1) as [e1 ->].
    destruct (accumulate_turn_refused self clip ref _ c1 g1 fmt r1 rf1
                Hfmt2 Hc1 Hg1) as [e1' ->];
      [rewrite N2; exact T21|].
    exact I.
  - destruct (accumulate_turn_refused self clip ref hm c1 g1 fmt r1 rf1
                Hfmt Hc1 Hg1 T1) as [e1 ->].
    destruct (accumulate_turn_refused self clip ref hm c2 g2 fmt r2 rf2
                Hfmt Hc2 Hg2 T2) as [e2 ->].
    exact I.
Qed.

(** C6: for two disjoint ranges [r1], [r2] of [ref] and a fixed
    configuration (per-pixel algorithm, bound, blur, reference frames),
    [get_mask] gives the same result with the ranges list [[r1; r2]] as
    with [[r2; r1]]; and the loop body of [get_mask], run over the two
    ranges in either order from any accumulator of the length of [ref],
    with any reference frames, fails in both orders or leaves
    accumulators of one format, resolution and length with the same
    samples. *)
Theorem get_mask_disjoint_ranges_order (self : t)
    (r1 r2 : FrameRangeN) (clip ref : VideoNode) :
  ranges_disjoint ref r1 r2 ->
  get_mask aka_expr_available box_blur depth_full
    (set_ranges self [r1; r2]) clip ref
  = get_mask aka_expr_available box_blur depth_full
      (set_ranges self [r2; r1]) clip ref
  /\ forall (hm : VideoNode) (fmt : VideoFormat) (rf1 rf2 : option Z),
       format hm = Some fmt ->
       num_frames hm = num_frames ref ->
       match foldM (accumulate depth_full self clip ref)
               [(r1, rf1); (r2, rf2)] hm,
             foldM (accumulate depth_full self clip ref)
               [(r2, rf2); (r1, rf1)] hm
       with
       | inr a, inr b =>
           format a = format b /\ width a = width b
           /\ height a = height b /\ num_frames a = num_frames b
           /\ forall (n : nat) (fa fb : Frame) (x y : Z),
                nth_error (frames a) n = Some fa ->
                nth_error (frames b) n = Some fb ->
                fa x y = fb x y
       | inl _, inl _ => True
       | _, _ => False
       end.
Proof.
  intros Hdis. split.
  - now rewrite !get_mask_ranges_irrelevant.
  - intros hm fmt rf1 rf2 Hfmt Hlen.
    apply (accumulate_disjoint_order self clip ref hm fmt r1 r2 rf1 rf2 Hfmt).
    unfold ranges_disjoint in *.
    now rewrite !(normalize_range_num_frames hm ref _ Hlen).
Qed.

End WithRuntime.

Lemma get_mask_disjoint_ranges_order_witness :
  get_mask true no_blur same_depth
    (set_ranges (mk [] None [] false own_frame_mask)
       [RangeInt 0; RangePair (Some 1) None]) gray64 gray64
  = get_mask true no_blur same_depth
      (set_ranges (mk [] None [] false own_frame_mask)
         [RangePair (Some 1) None; RangeInt 0]) gray64 gray64
  /\ forall (hm : VideoNode) (fmt : VideoFormat) (rf1 rf2 : option Z),
       format hm = Some fmt ->
       num_frames hm = num_frames gray64 ->
       match foldM (accumulate same_depth
                      (mk [] None [] false own_frame_mask) gray64 gray64)
               [(RangeInt 0, rf1); (RangePair (Some 1) None, rf2)] hm,
             foldM (accumulate same_depth
                      (mk [] None [] false own_frame_mask) gray64 gray64)
               [(RangePair (Some 1) None, rf2); (RangeInt 0, rf1)] hm
       with
       | inr a, inr b =>
           format a = format b /\ width a = width b
           /\ height a = height b /\ num_frames a = num_frames b
           /\ forall (n : nat) (fa fb : Frame) (x y : Z),
                nth_error (frames a) n = Some fa ->
                nth_error (frames b) n = Some fb ->
                fa x y = fb x y
       | inl _, inl _ => True
       | _, _ => False
       end.
Proof.
  apply (get_mask_disjoint_ranges_order true no_blur same_depth
           (mk [] None [] false own_frame_mask)
           (RangeInt 0) (RangePair (Some 1) None) gray64 gray64).
  left. simpl. lia.
Defined.

(** The loop body run over two disjoint ranges of [gray64], each with its
    own reference frame, in both orders: frame 0 holds the samples of
    reference frame 1, frames 1 and 2 those of the last frame. *)
Lemma accumulate_disjoint_run :
  exists a b : VideoNode,
    foldM (accumulate same_depth (mk [] None [] false own_frame_mask)
             gray64 gray64)
      [(RangeInt 0, Some 1); (RangePair (Some 1) None, None)] blank64
    = inr a
    /\ foldM (accumulate same_depth (mk [] None [] false own_frame_mask)
                gray64 gray64)
         [(RangePair (Some 1) None, None); (RangeInt 0, Some 1)] blank64
       = inr b
    /\ frame_at a 0 3 4 = 3 /\ frame_at b 0 3 4 = 3
    /\ frame_at a 1 3 4 = 4 /\ frame_at b 1 3 4 = 4
    /\ frame_at a 2 3 4 = 4 /\ frame_at b 2 3 4 = 4.
Proof.
  eexists. eexists. split; [reflexivity|]. split; [reflexivity|].
  repeat split.
Qed.

(** C1 (failing input): a deferred mask built with one range covering the
    whole clip and no reference frames, over [white_mask].  [get_mask]
    returns an all-zero frame 0 although the per-pixel algorithm gives
    255 everywhere: with an empty [refframes] the loop over
    [zip(ranges, refframes)] has no pair to visit.  Accumulating one mask
    for each range, as specified, gives 255. *)
Theorem get_mask_empty_refframes_skips_ranges :
  exists (self : t) (out acc : VideoNode),
    __init__ white_mask (RangeList [RangePair (Some 0) None]) None false
      RefNone = inr self
    /\ ranges self = [RangePair (Some 0) None]
    /\ refframes self = []
    /\ get_mask true no_blur same_depth self clip64 clip64 = inr out
    /\ frame_at out 0 0 0 = 0
    /\ accumulate_per_range same_depth self clip64 clip64
         (replace_gray fmt8) = inr acc
    /\ frame_at acc 0 0 0 = 255.
Proof.
  eexists. eexists. eexists.
  split; [reflexivity|]. split; [reflexivity|]. split; [reflexivity|].
  split; [reflexivity|]. split; [reflexivity|].
  split; [reflexivity|]. reflexivity.
Qed.

End DeferredMaskProperties.

(** * Further properties of [vsmasktools/utils.py] *)

(** ** Regions: [_get_region_expr], [region_rel_mask], [region_abs_mask] *)

Lemma nth_error_lt_some {A : Type} (l : list A) (n : nat) :
  (n < length l)%nat -> exists a : A, nth_error l n = Some a.
Proof.
  intros H. destruct (nth_error l n) as [a|] eqn:E; [now exists a|].
  apply nth_error_None in E. lia.
Qed.

(** With an integer [replace], the expression of [_get_region_expr] selects
    the source sample where one of its four comparisons holds, and
    [replace] elsewhere. *)
Lemma region_expr_int_eval (clip : VideoNode) (left right top bottom k : Z)
    (rel : bool) (env : ExprEnv) :
  eval_rpn env
    (_get_region_expr clip left right top bottom (inr k) rel) []
  = Some (if ((env_X env <? left)
              || (env_X env >? (if rel then right + 1
                                else width clip - (right + 1))))
             || ((env_Y env <? top)
                 || (env_Y env >? (if rel then bottom + 1
                                   else height clip - (bottom + 1))))
          then env_x env else k).
Proof.
  unfold _get_region_expr. destruct rel; simpl; now rewrite !truth_gtb.
Qed.

Lemma outside_not_in_margins (clip : VideoNode) (left right top bottom x y : Z) :
  ((x <? left) || (x >? width clip - (right + 1)))
  || ((y <? top) || (y >? height clip - (bottom + 1)))
  = negb (in_margins clip left right top bottom x y).
Proof.
  unfold in_margins. rewrite !Z.gtb_ltb.
  destruct (Z.ltb_spec x left), (Z.ltb_spec (width clip - (right + 1)) x),
    (Z.ltb_spec y top), (Z.ltb_spec (height clip - (bottom + 1)) y),
    (Z.leb_spec left x), (Z.ltb_spec x (width clip - right)),
    (Z.leb_spec top y), (Z.ltb_spec y (height clip - bottom));
    cbn; try reflexivity; lia.
Qed.

Lemma crop_pad_frames (clip : VideoNode) (left right top bottom : Z)
    (n : nat) (g : Frame) :
  nth_error
    (frames (std.AddBorders_out (std.Crop_out clip left right top bottom)
               left right top bottom)) n = Some g ->
  exists f : Frame,
    nth_error (frames clip) n = Some f
    /\ forall x y,
         g x y = if in_margins clip left right top bottom x y
                 then f x y else 0.
Proof.
  cbn [std.AddBorders_out std.Crop_out format width height frames].
  intros Hn. rewrite map_map, nth_error_map in Hn.
  destruct (nth_error (frames clip) n) as [f|]; [|discriminate].
  injection Hn as <-. exists f. split; [reflexivity|]. intros x y.
  unfold in_margins.
  replace (left + (width clip - left - right)) with (width clip - right)
    by lia.
  replace (top + (height clip - top - bottom)) with (height clip - bottom)
    by lia.
  destruct (_ && _); [|reflexivity].
  f_equal; lia.
Qed.

(** Margins [Crop] accepts are borders [AddBorders] accepts. *)
Lemma Crop_ok_AddBorders_ok (fmt : VideoFormat) (clip : VideoNode)
    (left right top bottom : Z) :
  std.Crop_ok fmt clip left right top bottom = true ->
  std.AddBorders_ok fmt left right top bottom = true
  /\ 0 < width clip - left - right /\ 0 < height clip - top - bottom.
Proof.
  unfold std.Crop_ok, std.AddBorders_ok. rewrite !andb_true_iff.
  rewrite !Z.leb_le, !Z.ltb_lt. intros H. repeat split; try tauto; lia.
Qed.

(** What crop-then-pad returns on a clip of constant format and
    resolution, for margins [Crop] accepts. *)
Lemma crop_pad_returns (clip : VideoNode) (fmt : VideoFormat)
    (left right top bottom : Z) :
  format clip = Some fmt -> 0 < width clip -> 0 < height clip ->
  std.Crop_ok fmt clip left right top bottom = true ->
  region_rel_mask false clip left right top bottom
  = inr (std.AddBorders_out (std.Crop_out clip left right top bottom)
           left right top bottom).
Proof.
  intros Hfmt Hw Hh Hok. unfold region_rel_mask, std.Crop.
  rewrite (constant_format_some clip fmt Hfmt Hw Hh), Hok. cbn [bind ret].
  destruct (Crop_ok_AddBorders_ok _ _ _ _ _ _ Hok) as (Hab & Hcw & Hch).
  unfold std.AddBorders.
  rewrite (constant_format_some _ fmt)
    by (cbn [std.Crop_out format width height]; assumption).
  now rewrite Hab.
Qed.

(** The clip [norm_expr] builds from the expression of [_get_region_expr]
    with [replace = 0], on a clip of constant format and resolution. *)
Lemma region_expr_frames (clip : VideoNode) (fmt : VideoFormat)
    (left right top bottom : Z) (rel : bool) :
  format clip = Some fmt -> 0 < width clip -> 0 < height clip ->
  exists out : VideoNode,
    norm_expr [clip]
      (_get_region_expr clip left right top bottom (inr 0) rel) = inr out
    /\ format out = format clip
    /\ width out = width clip /\ height out = height clip
    /\ length (frames out) = length (frames clip)
    /\ forall (n : nat) (g : Frame),
         nth_error (frames out) n = Some g ->
         exists f : Frame,
           nth_error (frames clip) n = Some f
           /\ forall x y,
                g x y
                = if ((x <? left)
                      || (x >? (if rel then right + 1
                                else width clip - (right + 1))))
                     || ((y <? top)
                         || (y >? (if rel then bottom + 1
                                   else height clip - (bottom + 1))))
                  then clamp 0 (peak_value fmt) (f x y) else 0.
Proof.
  intros Hfmt Hw Hh. unfold norm_expr. rewrite Hfmt.
  replace (stack_depth _ 0) with (Some 1%nat)
    by (destruct rel; reflexivity).
  cbn [forallb]. rewrite (same_planes_refl clip fmt Hfmt Hw Hh).
  cbn [andb].
  eexists. split; [reflexivity|].
  cbn [with_frames format width height frames].
  split; [congruence|]. split; [reflexivity|]. split; [reflexivity|].
  split; [now rewrite length_map, length_seq|].
  intros n g Hn. apply nth_error_map_seq in Hn. destruct Hn as [-> Hn].
  destruct (nth_error_lt_some _ _ Hn) as [f Hf]. exists f.
  split; [exact Hf|]. intros x y. cbv beta zeta.
  rewrite region_expr_int_eval. cbn [env_X env_Y env_x].
  rewrite (DeferredMaskProperties.frame_at_nth_error clip n f Hf).
  destruct (_ || _); [reflexivity|]. unfold clamp. lia.
Qed.

Lemma in_margins_rect (clip : VideoNode) (w h left top x y : Z) :
  in_margins clip left (width clip - w - left) top (height clip - h - top)
    x y
  = in_rectb w h left top x y.
Proof.
  unfold in_margins, in_rectb.
  replace (width clip - (width clip - w - left)) with (left + w) by lia.
  replace (height clip - (height clip - h - top)) with (top + h) by lia.
  reflexivity.
Qed.

(** X1: on a clip of constant format and resolution, and for margins the
    crop accepts (none negative, something left of the frame, each a
    multiple of the subsampling), the crop-then-pad strategy of
    [region_rel_mask] keeps the format, the resolution and the length of
    the clip; in every frame it keeps the samples within the four margins
    and writes 0 in the margins. *)
Theorem region_rel_mask_fallback_pixels (clip : VideoNode)
    (fmt : VideoFormat) (left right top bottom : Z) :
  format clip = Some fmt -> 0 < width clip -> 0 < height clip ->
  std.Crop_ok fmt clip left right top bottom = true ->
  exists out : VideoNode,
    region_rel_mask false clip left right top bottom = inr out
    /\ format out = format clip
    /\ width out = width clip /\ height out = height clip
    /\ length (frames out) = length (frames clip)
    /\ forall (n : nat) (g : Frame),
         nth_error (frames out) n = Some g ->
         exists f : Frame,
           nth_error (frames clip) n = Some f
           /\ forall x y,
                g x y = if in_margins clip left right top bottom x y
                        then f x y else 0.
Proof.
  intros Hfmt Hw Hh Hok.
  rewrite (crop_pad_returns clip fmt left right top bottom Hfmt Hw Hh Hok).
  eexists. split; [reflexivity|].
  split; [reflexivity|].
  split; [cbn [std.AddBorders_out std.Crop_out width]; lia|].
  split; [cbn [std.AddBorders_out std.Crop_out height]; lia|].
  split; [cbn [std.AddBorders_out std.Crop_out frames];
          now rewrite !length_map|].
  intros n g. apply crop_pad_frames.
Qed.

Lemma region_rel_mask_fallback_pixels_witness :
  exists out : VideoNode,
    region_rel_mask false clip64 4 8 2 6 = inr out
    /\ format out = format clip64
    /\ width out = width clip64 /\ height out = height clip64
    /\ length (frames out) = length (frames clip64)
    /\ forall (n : nat) (g : Frame),
         nth_error (frames out) n = Some g ->
         exists f : Frame,
           nth_error (frames clip64) n = Some f
           /\ forall x y,
                g x y = if in_margins clip64 4 8 2 6 x y
                        then f x y else 0.
Proof.
  apply (region_rel_mask_fallback_pixels clip64 fmt8 4 8 2 6);
    [reflexivity | simpl; lia | simpl; lia | reflexivity].
Defined.

(** X2: on a clip of constant format and resolution, the expression
    strategy of [region_rel_mask] keeps the format, the resolution and the
    length of the clip; in every frame it writes 0 within the four
    margins and keeps the source sample, clamped to the format's range,
    in the margins: the opposite selection to the crop-then-pad
    strategy. *)
Theorem region_rel_mask_expr_pixels (clip : VideoNode) (fmt : VideoFormat)
    (left right top bottom : Z) :
  format clip = Some fmt -> 0 < width clip -> 0 < height clip ->
  exists out : VideoNode,
    region_rel_mask true clip left right top bottom = inr out
    /\ format out = format clip
    /\ width out = width clip /\ height out = height clip
    /\ length (frames out) = length (frames clip)
    /\ forall (n : nat) (g : Frame),
         nth_error (frames out) n = Some g ->
         exists f : Frame,
           nth_error (frames clip) n = Some f
           /\ forall x y,
                g x y = if in_margins clip left right top bottom x y
                        then 0 else clamp 0 (peak_value fmt) (f x y).
Proof.
  intros Hfmt Hw Hh. unfold region_rel_mask.
  destruct (region_expr_frames clip fmt left right top bottom false
              Hfmt Hw Hh)
    as (out & -> & Hf & Hwo & Hho & Hl & Hpx).
  exists out. repeat (split; [assumption || reflexivity|]).
  intros n g Hn. destruct (Hpx n g Hn) as (f & Hfn & Hg).
  exists f. split; [exact Hfn|]. intros x y. rewrite Hg.
  rewrite outside_not_in_margins.
  now destruct (in_margins _ _ _ _ _ _ _).
Qed.

Lemma region_rel_mask_expr_pixels_witness :
  exists out : VideoNode,
    region_rel_mask true gray64 4 8 2 6 = inr out
    /\ format out = format gray64
    /\ width out = width gray64 /\ height out = height gray64
    /\ length (frames out) = length (frames gray64)
    /\ forall (n : nat) (g : Frame),
         nth_error (frames out) n = Some g ->
         exists f : Frame,
           nth_error (frames gray64) n = Some f
           /\ forall x y,
                g x y = if in_margins gray64 4 8 2 6 x y
                        then 0 else clamp 0 (peak_value gray8) (f x y).
Proof.
  apply (region_rel_mask_expr_pixels gray64 gray8 4 8 2 6);
    [reflexivity | simpl; lia | simpl; lia].
Defined.

Lemma constant_format_variable (clip : VideoNode) :
  width clip = 0 \/ height clip = 0 -> constant_format clip = None.
Proof.
  intros Hvar. unfold constant_format.
  destruct (format clip); [|reflexivity].
  replace ((0 <? width clip) && (0 <? height clip)) with false;
    [reflexivity|].
  symmetry. apply andb_false_iff.
  destruct Hvar as [H|H]; [left | right]; rewrite H; reflexivity.
Qed.

Lemma mapM_map {A B : Type} (f : A -> result B) (g : A -> B)
    (xs : list A) :
  (forall x, In x xs -> f x = inr (g x)) ->
  mapM f xs = inr (map g xs).
Proof.
  induction xs as [|x rest IH]; intros H; [reflexivity|].
  cbn [mapM map]. rewrite (H x) by (now left). cbn [bind].
  rewrite IH by (intros z Hz; apply H; now right). reflexivity.
Qed.

Section RegionAbsProperties.

Variable frame_size : VideoNode -> nat -> Z * Z.

(** X3: on a clip of constant format and resolution, [region_abs_mask]
    keeps the format, the resolution and the length; with crop-then-pad,
    for a rectangle the crop accepts, it keeps the samples of the
    rectangle [left <= x < left + w], [top <= y < top + h] and writes 0
    elsewhere; with the expression strategy it writes 0 in the rectangle
    and keeps the (clamped) samples elsewhere. *)
Theorem region_abs_mask_fixed_pixels (aka_expr_available : bool)
    (clip : VideoNode) (fmt : VideoFormat) (w h left top : Z) :
  format clip = Some fmt ->
  0 < width clip -> 0 < height clip ->
  (aka_expr_available = false ->
   std.Crop_ok fmt clip left (width clip - w - left)
     top (height clip - h - top) = true) ->
  exists out : VideoNode,
    region_abs_mask aka_expr_available frame_size clip w h left top
    = inr out
    /\ format out = format clip
    /\ width out = width clip /\ height out = height clip
    /\ length (frames out) = length (frames clip)
    /\ forall (n : nat) (g : Frame),
         nth_error (frames out) n = Some g ->
         exists f : Frame,
           nth_error (frames clip) n = Some f
           /\ forall x y,
                g x y
                = if in_rectb w h left top x y
                  then (if aka_expr_available then 0 else f x y)
                  else (if aka_expr_available
                        then clamp 0 (peak_value fmt) (f x y) else 0).
Proof.
  intros Hfmt Hw Hh Hok. unfold region_abs_mask.
  replace ((width clip =? 0) || (height clip =? 0)) with false
    by (symmetry; apply orb_false_iff; split; apply Z.eqb_neq; lia).
  destruct aka_expr_available.
  - unfold region_rel_mask.
    destruct (region_expr_frames clip fmt left (width clip - w - left)
                top (height clip - h - top) false Hfmt Hw Hh)
      as (out & -> & Hf & Hwo & Hho & Hl & Hpx).
    exists out. repeat (split; [assumption || reflexivity|]).
    intros n g Hn. destruct (Hpx n g Hn) as (f & Hfn & Hg).
    exists f. split; [exact Hfn|]. intros x y. rewrite Hg.
    rewrite outside_not_in_margins, in_margins_rect.
    now destruct (in_rectb _ _ _ _ _ _).
  - rewrite (crop_pad_returns clip fmt _ _ _ _ Hfmt Hw Hh (Hok eq_refl)).
    eexists. split; [reflexivity|].
    split; [reflexivity|].
    split; [cbn [std.AddBorders_out std.Crop_out width]; lia|].
    split; [cbn [std.AddBorders_out std.Crop_out height]; lia|].
    split; [cbn [std.AddBorders_out std.Crop_out frames];
            now rewrite !length_map|].
    intros n g Hn. apply crop_pad_frames in Hn.
    destruct Hn as (f & Hfn & Hg). exists f. split; [exact Hfn|].
    intros x y. now rewrite Hg, in_margins_rect.
Qed.

(** X4: on a clip of variable resolution, the expression strategy of
    [region_abs_mask] returns no mask: the evaluator takes clips of
    constant format and resolution only. *)
Theorem region_abs_mask_variable_expr_refused (clip : VideoNode)
    (w h left top : Z) :
  width clip = 0 \/ height clip = 0 ->
  region_abs_mask true frame_size clip w h left top
  = inl (match format clip with
         | Some _ => ExprError
         | None => VariableFormatError
         end).
Proof.
  intros Hvar. unfold region_abs_mask.
  replace ((width clip =? 0) || (height clip =? 0)) with true
    by (symmetry; apply orb_true_iff;
        destruct Hvar; [left | right]; now apply Z.eqb_eq).
  unfold norm_expr. destruct (format clip); [|reflexivity].
  destruct (stack_depth _ 0) as [[|[|d]]|]; try reflexivity.
  cbn [forallb]. unfold same_planes.
  now rewrite (constant_format_variable clip Hvar).
Qed.

(** X5: on a clip of variable resolution, when in every frame the window
    is one [CropAbs] accepts (not empty, inside the frame, aligned to the
    subsampling) and the rest of the frame borders [AddBorders] accepts,
    the per-frame crop-then-pad strategy of [region_abs_mask] keeps, in
    every frame and whatever that frame's own resolution, the samples of
    the rectangle [left <= x < left + w], [top <= y < top + h] and writes
    0 elsewhere. *)
Theorem region_abs_mask_variable_fallback_pixels (clip : VideoNode)
    (fmt : VideoFormat) (w h left top : Z) :
  format clip = Some fmt ->
  width clip = 0 \/ height clip = 0 ->
  (forall n : nat,
     (n < length (frames clip))%nat ->
     CropAbs_ok fmt w h left top
       (fst (frame_size clip n)) (snd (frame_size clip n)) = true
     /\ std.AddBorders_ok fmt
          left (fst (frame_size clip n) - w - left)
          top (snd (frame_size clip n) - h - top) = true) ->
  exists out : VideoNode,
    region_abs_mask false frame_size clip w h left top = inr out
    /\ format out = format clip
    /\ length (frames out) = length (frames clip)
    /\ forall (n : nat) (g : Frame),
         nth_error (frames out) n = Some g ->
         exists f : Frame,
           nth_error (frames clip) n = Some f
           /\ forall x y,
                g x y = if in_rectb w h left top x y then f x y else 0.
Proof.
  intros Hfmt Hvar Hok. unfold region_abs_mask.
  replace ((width clip =? 0) || (height clip =? 0)) with true
    by (symmetry; apply orb_true_iff;
        destruct Hvar; [left | right]; now apply Z.eqb_eq).
  rewrite (mapM_map _
             (fun n =>
                frame_at
                  (std.AddBorders_out (std_CropAbs_out clip w h left top)
                     left (fst (frame_size clip n) - w - left)
                     top (snd (frame_size clip n) - h - top)) n)).
  - cbn [bind ret]. eexists. split; [reflexivity|].
    cbn [with_frames format frames]. split; [reflexivity|].
    split; [now rewrite length_map, length_seq|].
    intros n g Hn. apply nth_error_map_seq in Hn. destruct Hn as [-> Hn].
    destruct (nth_error_lt_some _ _ Hn) as [f Hf]. exists f.
    split; [exact Hf|]. intros x y.
    erewrite DeferredMaskProperties.frame_at_nth_error.
    2:{ cbn [std.AddBorders_out std_CropAbs_out frames].
        rewrite map_map, nth_error_map, Hf. reflexivity. }
    cbn [width height std_CropAbs_out]. unfold in_rectb.
    destruct (_ && _); [|reflexivity]. f_equal; lia.
  - intros n Hin. apply in_seq in Hin.
    destruct (Hok n) as [Hc Hb]; [lia|].
    unfold _crop, std_CropAbs. rewrite Hfmt, Hc. cbn [bind ret].
    unfold std.AddBorders.
    assert (Hpos : 0 < w /\ 0 < h).
    { unfold CropAbs_ok in Hc. rewrite !andb_true_iff in Hc.
      rewrite !Z.ltb_lt in Hc. tauto. }
    rewrite (constant_format_some _ fmt)
      by (cbn [std_CropAbs_out format width height]; tauto).
    rewrite Hb. reflexivity.
Qed.

End RegionAbsProperties.

Lemma region_abs_mask_fixed_pixels_witness :
  exists out : VideoNode,
    region_abs_mask false (fun _ _ => (64, 64)) gray64 10 10 5 5 = inr out
    /\ format out = format gray64
    /\ width out = width gray64 /\ height out = height gray64
    /\ length (frames out) = length (frames gray64)
    /\ forall (n : nat) (g : Frame),
         nth_error (frames out) n = Some g ->
         exists f : Frame,
           nth_error (frames gray64) n = Some f
           /\ forall x y,
                g x y = if in_rectb 10 10 5 5 x y then f x y else 0.
Proof.
  apply (region_abs_mask_fixed_pixels (fun _ _ => (64, 64)) false gray64
           gray8 10 10 5 5);
    [reflexivity | simpl; lia | simpl; lia | reflexivity].
Defined.

Lemma region_abs_mask_variable_expr_refused_witness :
  region_abs_mask true (fun _ _ => (64, 64)) variable_clip 10 10 5 5
  = inl ExprError.
Proof.
  apply (region_abs_mask_variable_expr_refused (fun _ _ => (64, 64))
           variable_clip 10 10 5 5).
  left. reflexivity.
Defined.

Lemma region_abs_mask_variable_fallback_pixels_witness :
  exists out : VideoNode,
    region_abs_mask false (fun _ n => (64 + Z.of_nat n, 48)) variable_clip
      10 10 5 5 = inr out
    /\ format out = format variable_clip
    /\ length (frames out) = length (frames variable_clip)
    /\ forall (n : nat) (g : Frame),
         nth_error (frames out) n = Some g ->
         exists f : Frame,
           nth_error (frames variable_clip) n = Some f
           /\ forall x y,
                g x y = if in_rectb 10 10 5 5 x y then f x y else 0.
Proof.
  apply (region_abs_mask_variable_fallback_pixels
           (fun _ n => (64 + Z.of_nat n, 48)) variable_clip gray8
           10 10 5 5);
    [reflexivity | left; reflexivity |].
  intros n Hn. destruct n as [|[|n]];
    [split; reflexivity | split; reflexivity | simpl in Hn; lia].
Defined.

(** ** [squaremask]: the two strategies; [BoundingBox.get_mask] *)

(** For a valid rectangle within the clip [squaremask] returns a mask of
    [rect_frame] frames. *)
Lemma squaremask_frames (aka_expr_available : bool) (clip : VideoNode)
    (fmt : VideoFormat) (w h ox oy : Z) (invert : bool) :
  check_variable clip = inr fmt ->
  frames clip <> [] ->
  0 < bits_per_sample fmt ->
  0 < w -> 0 < h -> 0 <= ox -> 0 <= oy ->
  ox + w <= width clip -> oy + h <= height clip ->
  exists (mask : VideoNode) (g : Frame),
    squaremask aka_expr_available clip w h ox oy invert = inr mask
    /\ format mask = Some (replace_gray fmt)
    /\ width mask = width clip /\ height mask = height clip
    /\ frames mask = repeat g (length (frames clip))
    /\ forall x y, g x y = rect_frame (peak_value fmt) w h ox oy invert x y.
Proof.
  intros Hchk Hne Hbits Hpw Hph Hox Hoy Hw Hh.
  destruct (squaremask_returns aka_expr_available clip fmt w h ox oy invert
              Hchk Hpw Hph Hox Hoy Hw Hh) as [mask Hm].
  destruct (squaremask_returned aka_expr_available clip fmt w h ox oy invert
              mask Hchk Hne Hbits Hm)
    as (_ & _ & Hf & Hwd & Hht & g & Hfr & Hg).
  exists mask, g. repeat (split; [assumption|]). exact Hg.
Qed.

(** X6: for a valid rectangle (not empty, no negative offset) within the
    clip's size, the expression strategy and the blank-pad-invert
    strategy of [squaremask] return masks of the same format (single
    plane, no subsampling, the clip's bit depth), the clip's resolution
    and length, and the same samples. *)
Theorem squaremask_strategies_agree (clip : VideoNode) (fmt : VideoFormat)
    (w h ox oy : Z) (invert : bool) :
  check_variable clip = inr fmt ->
  frames clip <> [] ->
  0 < bits_per_sample fmt ->
  0 < w -> 0 < h -> 0 <= ox -> 0 <= oy ->
  ox + w <= width clip -> oy + h <= height clip ->
  exists fast slow : VideoNode,
    squaremask true clip w h ox oy invert = inr fast
    /\ squaremask false clip w h ox oy invert = inr slow
    /\ format fast = Some (replace_gray fmt) /\ format slow = format fast
    /\ width fast = width clip /\ width slow = width clip
    /\ height fast = height clip /\ height slow = height clip
    /\ length (frames fast) = length (frames clip)
    /\ length (frames slow) = length (frames clip)
    /\ forall (n : nat) (g1 g2 : Frame) (x y : Z),
         nth_error (frames fast) n = Some g1 ->
         nth_error (frames slow) n = Some g2 ->
         g1 x y = g2 x y.
Proof.
  intros Hchk Hne Hbits Hpw Hph Hox Hoy Hw Hh.
  destruct (squaremask_frames true clip fmt w h ox oy invert
              Hchk Hne Hbits Hpw Hph Hox Hoy Hw Hh)
    as (fast & g1 & E1 & F1 & W1 & H1 & Fr1 & P1).
  destruct (squaremask_frames false clip fmt w h ox oy invert
              Hchk Hne Hbits Hpw Hph Hox Hoy Hw Hh)
    as (slow & g2 & E2 & F2 & W2 & H2 & Fr2 & P2).
  exists fast, slow.
  repeat (split; [assumption || congruence
                  || (rewrite ?Fr1, ?Fr2; apply repeat_length)|]).
  intros n a b x y Ha Hb. rewrite Fr1 in Ha. rewrite Fr2 in Hb.
  apply nth_error_repeat_inv in Ha, Hb. subst a b.
  now rewrite P1, P2.
Qed.

Lemma squaremask_strategies_agree_witness :
  exists fast slow : VideoNode,
    squaremask true clip64 10 20 5 7 true = inr fast
    /\ squaremask false clip64 10 20 5 7 true = inr slow
    /\ format fast = Some (replace_gray fmt8) /\ format slow = format fast
    /\ width fast = width clip64 /\ width slow = width clip64
    /\ height fast = height clip64 /\ height slow = height clip64
    /\ length (frames fast) = length (frames clip64)
    /\ length (frames slow) = length (frames clip64)
    /\ forall (n : nat) (g1 g2 : Frame) (x y : Z),
         nth_error (frames fast) n = Some g1 ->
         nth_error (frames slow) n = Some g2 ->
         g1 x y = g2 x y.
Proof.
  apply (squaremask_strategies_agree clip64 fmt8 10 20 5 7 true);
    try reflexivity; try discriminate; simpl; lia.
Defined.

(** X7: [BoundingBox.get_mask] passes the box to [squaremask] as width,
    height, column, row: it raises the size error exactly when
    [pos.x + size.x] exceeds the width of [ref] or [pos.y + size.y] its
    height; for a box of positive size at a non-negative position within
    [ref], every frame of the mask has the peak value in
    [pos.x <= x < pos.x + size.x], [pos.y <= y < pos.y + size.y] and 0
    elsewhere, the two swapped when the box is inverted. *)
Theorem bounding_box_get_mask (aka_expr_available : bool)
    (box : BoundingBox.t) (ref : VideoNode) (fmt : VideoFormat) :
  check_variable ref = inr fmt ->
  frames ref <> [] ->
  0 < bits_per_sample fmt ->
  (BoundingBox.get_mask aka_expr_available box ref
   = inl (CustomValueError "mask exceeds clip size!")
   <-> (fst (BoundingBox.pos box) + fst (BoundingBox.size box) > width ref
        \/ snd (BoundingBox.pos box) + snd (BoundingBox.size box)
           > height ref))
  /\ (0 < fst (BoundingBox.size box) -> 0 < snd (BoundingBox.size box) ->
      0 <= fst (BoundingBox.pos box) -> 0 <= snd (BoundingBox.pos box) ->
      fst (BoundingBox.pos box) + fst (BoundingBox.size box) <= width ref ->
      snd (BoundingBox.pos box) + snd (BoundingBox.size box) <= height ref ->
      exists mask : VideoNode,
        BoundingBox.get_mask aka_expr_available box ref = inr mask
        /\ length (frames mask) = length (frames ref)
        /\ forall (n : nat) (g : Frame) (x y : Z),
             nth_error (frames mask) n = Some g ->
             g x y
             = if xorb ((fst (BoundingBox.pos box) <=? x)
                        && (x <? fst (BoundingBox.pos box)
                                 + fst (BoundingBox.size box))
                        && (snd (BoundingBox.pos box) <=? y)
                        && (y <? snd (BoundingBox.pos box)
                                 + snd (BoundingBox.size box)))
                    (BoundingBox.invert box)
               then peak_value fmt else 0).
Proof.
  intros Hchk Hne Hbits. unfold BoundingBox.get_mask.
  destruct box as [[px py] [sx sy] inv].
  cbn [BoundingBox.pos BoundingBox.size BoundingBox.invert fst snd].
  split; [split|].
  - intros Herr.
    destruct (Z_gt_dec (px + sx) (width ref)) as [|Hw]; [now left|].
    destruct (Z_gt_dec (py + sy) (height ref)) as [|Hh]; [now right|].
    exfalso.
    apply (squaremask_no_size_error aka_expr_available ref fmt sx sy px py
             inv Hchk); [lia | lia | exact Herr].
  - now apply (squaremask_exceeds aka_expr_available ref fmt).
  - intros Hpw Hph Hox Hoy Hw Hh.
    destruct (squaremask_frames aka_expr_available ref fmt sx sy px py inv
                Hchk Hne Hbits Hpw Hph Hox Hoy Hw Hh)
      as (mask & g & E & _ & _ & _ & Fr & P).
    exists mask. split; [exact E|].
    split; [rewrite Fr; apply repeat_length|].
    intros n a x y Ha. rewrite Fr in Ha.
    apply nth_error_repeat_inv in Ha. subst a. now rewrite P.
Qed.

Lemma bounding_box_get_mask_witness :
  (BoundingBox.get_mask true (BoundingBox.mk (5, 7) (10, 20) false) clip64
   = inl (CustomValueError "mask exceeds clip size!")
   <-> (5 + 10 > width clip64 \/ 7 + 20 > height clip64))
  /\ (0 < 10 -> 0 < 20 -> 0 <= 5 -> 0 <= 7 ->
      5 + 10 <= width clip64 ->
      7 + 20 <= height clip64 ->
      exists mask : VideoNode,
        BoundingBox.get_mask true (BoundingBox.mk (5, 7) (10, 20) false)
          clip64 = inr mask
        /\ length (frames mask) = length (frames clip64)
        /\ forall (n : nat) (g : Frame) (x y : Z),
             nth_error (frames mask) n = Some g ->
             g x y
             = if xorb ((5 <=? x) && (x <? 5 + 10)
                        && (7 <=? y) && (y <? 7 + 20)) false
               then peak_value fmt8 else 0).
Proof.
  apply (bounding_box_get_mask true (BoundingBox.mk (5, 7) (10, 20) false)
           clip64 fmt8); [reflexivity | discriminate | reflexivity].
Defined.

(** ** [replace_squaremask]: the merged clip *)

Lemma range_within_ok (clip : VideoNode) (r : FrameRangeN) :
  range_within clip r -> range_ok clip (normalize_range clip r) = true.
Proof.
  unfold range_within, range_ok, normalize_range.
  destruct r as [|k|[s|] [e|]]; intros H; cbn [fst snd];
    repeat match goal with
           | |- context [?a <? 0] =>
               replace (a <? 0) with false
                 by (symmetry; apply Z.ltb_ge; lia)
           end;
    rewrite !andb_true_iff, !Z.leb_le, Z.ltb_lt; lia.
Qed.

Lemma ranges_within_ok (clip : VideoNode) (ranges : FrameRangesArg) :
  ranges_within clip ranges ->
  forallb (range_ok clip) (normalize_ranges clip ranges) = true.
Proof.
  destruct ranges as [r|l]; cbn [ranges_within normalize_ranges forallb].
  - intros H. now rewrite (range_within_ok clip r H).
  - intros H. apply forallb_forall. intros x Hx.
    apply in_map_iff in Hx. destruct Hx as (r & <- & Hr).
    apply range_within_ok. rewrite Forall_forall in H. now apply H.
Qed.

(** For ranges of frames of the first clip, [replace_ranges] returns a
    clip whose frames are those of the second clip within the ranges and
    those of the first clip outside them. *)
Lemma replace_ranges_frames (clip_a clip_b : VideoNode)
    (ranges : FrameRangesArg) :
  ranges <> OneRange RangeNone ->
  ranges_within clip_a ranges ->
  exists out : VideoNode,
    replace_ranges clip_a clip_b ranges = inr out
    /\ length (frames out) = length (frames clip_a)
    /\ forall (n : nat) (g : Frame),
         nth_error (frames out) n = Some g ->
         exists fa : Frame,
           nth_error (frames clip_a) n = Some fa
           /\ g = if frame_in_ranges clip_a ranges n
                  then frame_at clip_b n else fa.
Proof.
  intros Hnone Hin. pose proof (ranges_within_ok clip_a ranges Hin) as Hok.
  assert (Hout : forall n g,
             nth_error (frames (replace_ranges_out clip_a clip_b ranges)) n
             = Some g ->
             exists fa : Frame,
               nth_error (frames clip_a) n = Some fa
               /\ g = if frame_in_ranges clip_a ranges n
                      then frame_at clip_b n else fa).
  { intros n g Hn. unfold replace_ranges_out in Hn.
    cbn [with_frames frames] in Hn.
    apply nth_error_map_seq in Hn. destruct Hn as [-> Hn].
    destruct (nth_error_lt_some _ _ Hn) as [fa Hfa]. exists fa.
    split; [exact Hfa|]. unfold frame_in_ranges.
    now rewrite (DeferredMaskProperties.frame_at_nth_error clip_a n fa Hfa). }
  assert (Hlen : length (frames (replace_ranges_out clip_a clip_b ranges))
                 = length (frames clip_a)).
  { unfold replace_ranges_out. cbn [with_frames frames].
    now rewrite length_map, length_seq. }
  unfold replace_ranges.
  destruct ranges as [[|k|s e]|[|r l]]; try congruence;
    try (rewrite Hok; eexists; split; [reflexivity|];
         split; [exact Hlen | exact Hout]).
  exists clip_a. split; [reflexivity|]. split; [reflexivity|].
  intros n g Hn. exists g. split; [exact Hn | reflexivity].
Qed.

Section ReplaceSquaremaskMerge.

Variable aka_expr_available : bool.
Variable float : Type.
Variable box_blur : VideoNode -> Z -> Z -> VideoNode.
Variable gauss_blur : VideoNode -> float -> VideoNode.
Variable blend : Z -> Z -> Z -> Z -> Z.

(** Without blur and without [show_mask], on two clips of one format and
    resolution and for a valid rectangle, [replace_squaremask] is
    [replace_ranges] over the masked merge, the mask being one rectangle
    frame looped to the length of [clipa]. *)
Lemma replace_squaremask_merge_unfold (clipa clipb : VideoNode)
    (fmt : VideoFormat) (w h ox oy : Z) (ranges : FrameRangesArg)
    (invert : bool) :
  format clipa = Some fmt -> format clipb = Some fmt ->
  0 < width clipa -> 0 < height clipa ->
  width clipb = width clipa -> height clipb = height clipa ->
  frames clipb <> [] ->
  0 < bits_per_sample fmt ->
  0 < w -> 0 < h -> 0 <= ox -> 0 <= oy ->
  ox + w <= width clipb -> oy + h <= height clipb ->
  exists (m : VideoNode) (g : Frame),
    frames m = [g]
    /\ (forall x y, g x y = rect_frame (peak_value fmt) w h ox oy invert x y)
    /\ replace_squaremask aka_expr_available box_blur gauss_blur blend
         clipa clipb (w, h, ox, oy) ranges NoBlur invert false
       = replace_ranges clipa
           (std.MaskedMerge_out blend clipa clipb
              (std.Loop m (num_frames clipa)))
           (effective_ranges ranges).
Proof.
  intros Ha Hb Hwa Hha Hwb Hhb Hne Hbits Hpw Hph Hox Hoy Hw Hh.
  assert (Hca : check_variable clipa = inr fmt).
  { unfold check_variable. rewrite Ha.
    replace ((width clipa =? 0) || (height clipa =? 0)) with false;
      [reflexivity|].
    symmetry. apply orb_false_iff. split; apply Z.eqb_neq; lia. }
  assert (Hcb : check_variable clipb = inr fmt).
  { unfold check_variable. rewrite Hb, Hwb, Hhb.
    replace ((width clipa =? 0) || (height clipa =? 0)) with false;
      [reflexivity|].
    symmetry. apply orb_false_iff. split; apply Z.eqb_neq; lia. }
  unfold replace_squaremask. rewrite Hca, Hcb. cbn [bind].
  destruct (frames clipb) as [|f0 rest] eqn:Hfb; [congruence|].
  assert (Hget : getitem clipb 0 = inr (with_frames clipb [f0])).
  { unfold getitem, num_frames. rewrite Hfb. reflexivity. }
  rewrite Hget. cbn [bind].
  destruct (squaremask_frames aka_expr_available (with_frames clipb [f0])
              fmt w h ox oy invert)
    as (m & g & E & Hmf & Hmw & Hmh & Fr & P);
    try assumption; [discriminate|].
  rewrite E. cbn [bind]. exists m, g.
  split; [exact Fr|]. split; [exact P|].
  assert (Hok : std.MaskedMerge_ok clipa clipb
                  (std.Loop m (num_frames clipa)) = true).
  { unfold std.MaskedMerge_ok.
    rewrite (constant_format_some clipa fmt),
      (constant_format_some clipb fmt),
      (constant_format_some _ (replace_gray fmt));
      try assumption;
      cbn [std.Loop with_frames format width height];
      try assumption; cbn [with_frames width height] in *; try lia.
    rewrite Hmw, Hmh.
    cbn [with_frames width height replace_gray bits_per_sample
           color_family].
    rewrite same_format_refl, Hwb, Hhb, !Z.eqb_refl, orb_true_r.
    reflexivity. }
  unfold std.MaskedMerge. rewrite Hok. cbn [bind ret].
  destruct ranges as [[| |]|]; reflexivity.
Qed.

(** Frame [n] of the masked merge, for [n] within [clipa]. *)
Lemma masked_merge_frame (clipa clipb m : VideoNode) (g : Frame) (n : nat) :
  frames m = [g] ->
  (n < length (frames clipa))%nat ->
  forall x y,
    frame_at (std.MaskedMerge_out blend clipa clipb
                (std.Loop m (num_frames clipa))) n x y
    = blend (get_peak_value clipa) (frame_at clipa n x y)
        (frame_at clipb n x y) (g x y).
Proof.
  intros Hm Hn x y.
  assert (Hnf : num_frames clipa <> 0) by (unfold num_frames; lia).
  assert (Hmask : frame_at (std.Loop m (num_frames clipa)) n = g).
  { apply DeferredMaskProperties.frame_at_nth_error.
    rewrite (Loop_single_frame m g _ Hm Hnf).
    apply nth_error_repeat. unfold num_frames. lia. }
  unfold std.MaskedMerge_out.
  erewrite DeferredMaskProperties.frame_at_nth_error
    by (cbn [with_frames frames];
        apply DeferredMaskProperties.nth_error_map_seq_lt; exact Hn).
  cbv beta. now rewrite Hmask.
Qed.

(** X8: without blur and without [show_mask], on two clips of one format
    and resolution, for a valid rectangle within them and ranges of
    frames of [clipa], [replace_squaremask] returns a clip of the length
    of [clipa]; a frame outside [ranges] is the frame of [clipa]; a frame
    within [ranges] is the blend of [clipa] and [clipb] weighted by the
    rectangle mask built from [clipb] (peak in the rectangle and 0
    elsewhere, swapped when inverted). *)
Theorem replace_squaremask_merge (clipa clipb : VideoNode)
    (fmt : VideoFormat) (w h ox oy : Z) (ranges : FrameRangesArg)
    (invert : bool) :
  format clipa = Some fmt -> format clipb = Some fmt ->
  0 < width clipa -> 0 < height clipa ->
  width clipb = width clipa -> height clipb = height clipa ->
  frames clipb <> [] ->
  0 < bits_per_sample fmt ->
  0 < w -> 0 < h -> 0 <= ox -> 0 <= oy ->
  ox + w <= width clipb -> oy + h <= height clipb ->
  ranges_within clipa (effective_ranges ranges) ->
  exists out : VideoNode,
    replace_squaremask aka_expr_available box_blur gauss_blur blend
      clipa clipb (w, h, ox, oy) ranges NoBlur invert false = inr out
    /\ length (frames out) = length (frames clipa)
    /\ forall (n : nat) (g : Frame),
         nth_error (frames out) n = Some g ->
         exists fa : Frame,
           nth_error (frames clipa) n = Some fa
           /\ forall x y,
                g x y
                = if frame_in_ranges clipa (effective_ranges ranges) n
                  then blend (get_peak_value clipa) (fa x y)
                         (frame_at clipb n x y)
                         (if xorb (in_rectb w h ox oy x y) invert
                          then peak_value fmt else 0)
                  else fa x y.
Proof.
  intros Ha Hb Hwa Hha Hwb Hhb Hne Hbits Hpw Hph Hox Hoy Hw Hh Hin.
  destruct (replace_squaremask_merge_unfold clipa clipb fmt
              w h ox oy ranges invert Ha Hb Hwa Hha Hwb Hhb Hne Hbits
              Hpw Hph Hox Hoy Hw Hh)
    as (m & gm & Hm & Hgm & ->).
  destruct (replace_ranges_frames clipa
              (std.MaskedMerge_out blend clipa clipb
                 (std.Loop m (num_frames clipa)))
              (effective_ranges ranges))
    as (out & -> & Hlen & Hfr);
    [destruct ranges as [[| |]|]; discriminate | exact Hin |].
  exists out. split; [reflexivity|]. split; [exact Hlen|].
  intros n g Hn. destruct (Hfr n g Hn) as (fa & Hfa & ->).
  exists fa. split; [exact Hfa|].
  intros x y. destruct (frame_in_ranges _ _ _); [|reflexivity].
  assert (Hlt : (n < length (frames clipa))%nat)
    by (apply nth_error_Some; congruence).
  rewrite (masked_merge_frame clipa clipb m gm n Hm Hlt).
  rewrite (DeferredMaskProperties.frame_at_nth_error clipa n fa Hfa).
  now rewrite Hgm.
Qed.

(** X9: with [ranges] left at [None], on two clips of one format and
    resolution and for a valid rectangle within them,
    [replace_squaremask] replaces the entire clip: every frame of the
    result is the blend of [clipa] and [clipb] weighted by the rectangle
    mask. *)
Theorem replace_squaremask_no_ranges_whole_clip (clipa clipb : VideoNode)
    (fmt : VideoFormat) (w h ox oy : Z) (invert : bool) :
  format clipa = Some fmt -> format clipb = Some fmt ->
  0 < width clipa -> 0 < height clipa ->
  width clipb = width clipa -> height clipb = height clipa ->
  frames clipa <> [] -> frames clipb <> [] ->
  0 < bits_per_sample fmt ->
  0 < w -> 0 < h -> 0 <= ox -> 0 <= oy ->
  ox + w <= width clipb -> oy + h <= height clipb ->
  exists out : VideoNode,
    replace_squaremask aka_expr_available box_blur gauss_blur blend
      clipa clipb (w, h, ox, oy) (OneRange RangeNone) NoBlur invert false
    = inr out
    /\ length (frames out) = length (frames clipa)
    /\ forall (n : nat) (g : Frame),
         nth_error (frames out) n = Some g ->
         exists fa : Frame,
           nth_error (frames clipa) n = Some fa
           /\ forall x y,
                g x y
                = blend (get_peak_value clipa) (fa x y)
                    (frame_at clipb n x y)
                    (if xorb (in_rectb w h ox oy x y) invert
                     then peak_value fmt else 0).
Proof.
  intros Ha Hb Hwa Hha Hwb Hhb Hnea Hne Hbits Hpw Hph Hox Hoy Hw Hh.
  assert (Hpos : 0 < num_frames clipa).
  { unfold num_frames. destruct (frames clipa); [congruence | cbn; lia]. }
  destruct (replace_squaremask_merge_unfold clipa clipb fmt
              w h ox oy (OneRange RangeNone) invert Ha Hb Hwa Hha Hwb Hhb
              Hne Hbits Hpw Hph Hox Hoy Hw Hh)
    as (m & gm & Hm & Hgm & ->).
  destruct (replace_ranges_frames clipa
              (std.MaskedMerge_out blend clipa clipb
                 (std.Loop m (num_frames clipa)))
              (effective_ranges (OneRange RangeNone)))
    as (out & -> & Hlen & Hfr);
    [discriminate
    | cbn [effective_ranges ranges_within]; constructor;
      [cbn [range_within]; lia | constructor] |].
  exists out. split; [reflexivity|]. split; [exact Hlen|].
  intros n g Hn. destruct (Hfr n g Hn) as (fa & Hfa & ->).
  exists fa. split; [exact Hfa|].
  intros x y.
  assert (Hlt : (n < length (frames clipa))%nat)
    by (apply nth_error_Some; congruence).
  replace (frame_in_ranges clipa (effective_ranges (OneRange RangeNone)) n)
    with true.
  - rewrite (masked_merge_frame clipa clipb m gm n Hm Hlt).
    rewrite (DeferredMaskProperties.frame_at_nth_error clipa n fa Hfa).
    now rewrite Hgm.
  - symmetry. unfold frame_in_ranges, effective_ranges, in_range.
    cbn [normalize_ranges map normalize_range existsb fst snd].
    replace (num_frames clipa - 1 <? 0) with false
      by (symmetry; apply Z.ltb_ge; lia).
    unfold num_frames.
    cbn. rewrite orb_false_r, andb_true_iff, !Z.leb_le. lia.
Qed.

(** X10: on concrete clips, [clipb] not empty, [replace_squaremask] raises
    the size error exactly when the rectangle exceeds the width or the
    height of [clipb], whatever the ranges, the blur and [show_mask]. *)
Theorem replace_squaremask_size_error_iff (clipa clipb : VideoNode)
    (fmt_a fmt_b : VideoFormat) (w h ox oy : Z) (ranges : FrameRangesArg)
    (blur_sigma : BlurSigma float) (invert show_mask : bool) :
  check_variable clipa = inr fmt_a ->
  check_variable clipb = inr fmt_b ->
  frames clipb <> [] ->
  replace_squaremask aka_expr_available box_blur gauss_blur blend
    clipa clipb (w, h, ox, oy) ranges blur_sigma invert show_mask
  = inl (CustomValueError "mask exceeds clip size!")
  <-> (ox + w > width clipb \/ oy + h > height clipb).
Proof.
  intros Ha Hb Hne.
  unfold replace_squaremask. rewrite Ha, Hb. cbn [bind].
  destruct (frames clipb) as [|f0 rest] eqn:Hfb; [congruence|].
  assert (Hget : getitem clipb 0 = inr (with_frames clipb [f0])).
  { unfold getitem, num_frames. rewrite Hfb. reflexivity. }
  rewrite Hget. cbn [bind].
  destruct (Z_gt_dec (ox + w) (width clipb)) as [Hw|Hw].
  { rewrite (squaremask_exceeds aka_expr_available (with_frames clipb [f0])
               fmt_b w h ox oy invert Hb) by (left; exact Hw).
    cbn [bind]. split; [now left | reflexivity]. }
  destruct (Z_gt_dec (oy + h) (height clipb)) as [Hh|Hh].
  { rewrite (squaremask_exceeds aka_expr_available (with_frames clipb [f0])
               fmt_b w h ox oy invert Hb) by (right; exact Hh).
    cbn [bind]. split; [now right | reflexivity]. }
  split; [|intros [?|?]; contradiction].
  pose proof (squaremask_no_size_error aka_expr_available
                (with_frames clipb [f0]) fmt_b w h ox oy invert Hb) as Hno.
  cbn [with_frames width height] in Hno.
  destruct (squaremask _ _ _ _ _ _ _) as [e|m]; cbn [bind].
  - intros Heq. exfalso. apply Hno; [lia | lia | exact Heq].
  - destruct show_mask; [discriminate|].
    unfold std.MaskedMerge. destruct (std.MaskedMerge_ok _ _ _);
      [|discriminate].
    cbn [bind ret]. unfold replace_ranges.
    destruct ranges as [[| |]|[|]];
      try discriminate; destruct (forallb _ _); discriminate.
Qed.

End ReplaceSquaremaskMerge.

Lemma replace_squaremask_merge_witness :
  exists out : VideoNode,
    replace_squaremask true no_blur no_gauss_blur linear_blend
      gray64 gray64b (10, 10, 0, 0)
      (RangeList [RangePair (Some 1) (Some 2)])
      NoBlur false false = inr out
    /\ length (frames out) = length (frames gray64)
    /\ forall (n : nat) (g : Frame),
         nth_error (frames out) n = Some g ->
         exists fa : Frame,
           nth_error (frames gray64) n = Some fa
           /\ forall x y,
                g x y
                = if frame_in_ranges gray64
                       (effective_ranges
                          (RangeList [RangePair (Some 1) (Some 2)])) n
                  then linear_blend (get_peak_value gray64) (fa x y)
                         (frame_at gray64b n x y)
                         (if xorb (in_rectb 10 10 0 0 x y) false
                          then peak_value gray8 else 0)
                  else fa x y.
Proof.
  apply (replace_squaremask_merge true unit no_blur no_gauss_blur
           linear_blend gray64 gray64b gray8 10 10 0 0
           (RangeList [RangePair (Some 1) (Some 2)]) false);
    try reflexivity; try discriminate; try (simpl; lia).
  constructor; [unfold range_within, num_frames; simpl; lia | constructor].
Defined.

Lemma replace_squaremask_no_ranges_whole_clip_witness :
  exists out : VideoNode,
    replace_squaremask false no_blur no_gauss_blur linear_blend
      gray64 gray64b (10, 10, 0, 0) (OneRange RangeNone) NoBlur true false
    = inr out
    /\ length (frames out) = length (frames gray64)
    /\ forall (n : nat) (g : Frame),
         nth_error (frames out) n = Some g ->
         exists fa : Frame,
           nth_error (frames gray64) n = Some fa
           /\ forall x y,
                g x y
                = linear_blend (get_peak_value gray64) (fa x y)
                    (frame_at gray64b n x y)
                    (if xorb (in_rectb 10 10 0 0 x y) true
                     then peak_value gray8 else 0).
Proof.
  apply (replace_squaremask_no_ranges_whole_clip false unit no_blur
           no_gauss_blur linear_blend gray64 gray64b gray8 10 10 0 0
           true);
    try reflexivity; try discriminate; simpl; lia.
Defined.

Lemma replace_squaremask_size_error_iff_witness :
  replace_squaremask true no_blur no_gauss_blur linear_blend
    gray64 gray64b (60, 10, 5, 5) (OneRange (RangeInt 1)) (IntSigma 2)
    false true
  = inl (CustomValueError "mask exceeds clip size!")
  <-> (5 + 60 > width gray64b \/ 5 + 10 > height gray64b).
Proof.
  apply (replace_squaremask_size_error_iff true unit no_blur no_gauss_blur
           linear_blend gray64 gray64b gray8 gray8 60 10 5 5
           (OneRange (RangeInt 1)) (IntSigma 2) false true);
    [reflexivity | reflexivity | discriminate].
Defined.

(** A run of [replace_squaremask] on two different clips: within the
    range and the rectangle the sample is [clipb]'s, elsewhere
    [clipa]'s. *)
Lemma replace_squaremask_run :
  exists out : VideoNode,
    replace_squaremask true no_blur no_gauss_blur linear_blend
      gray64 gray64b (10, 10, 0, 0)
      (RangeList [RangePair (Some 1) (Some 2)])
      NoBlur false false = inr out
    /\ frame_at out 0 3 4 = 7 /\ frame_at out 1 3 4 = 103
    /\ frame_at out 1 30 4 = 30 /\ frame_at out 2 3 4 = 8.
Proof.
  eexists. split; [reflexivity|]. repeat split.
Qed.

(** * Further properties of [vsmasks/abstract.py] *)

Module DeferredMaskMore.

Import DeferredMask DeferredMaskAux DeferredMaskProperties.

(** X12: whatever the arguments, a [DeferredMask] that [__init__] returns
    has no reference frames or as many as ranges; it holds the bound, the
    blur flag and the per-pixel algorithm as given, and its ranges are the
    list given, the one range given, or [(0, None)] for [None]. *)
Theorem init_invariant (mask_impl : VideoNode -> VideoNode -> VideoNode)
    (ranges_arg : FrameRangesArg) (bound_arg : option BoundingBox.t)
    (blur_arg : bool) (refframes_arg : RefframesArg) (self : t) :
  __init__ mask_impl ranges_arg bound_arg blur_arg refframes_arg
  = inr self ->
  (refframes self = [] \/ length (refframes self) = length (ranges self))
  /\ ranges self = match ranges_arg with
                   | RangeList l => l
                   | OneRange RangeNone => [RangePair (Some 0) None]
                   | OneRange r => [r]
                   end
  /\ bound self = bound_arg /\ blur self = blur_arg
  /\ _mask self = mask_impl.
Proof.
  unfold __init__.
  set (rs := match ranges_arg with
             | RangeList l => l
             | OneRange RangeNone => [RangePair (Some 0) None]
             | OneRange r => [r]
             end).
  assert (Hgen : forall rf : list (option Z),
             (if (len rf >? 0) && negb (len rf =? len rs)
              then raise (FramesLengthError
                     "Received reference frame and range list size mismatch!")
              else ret (mk rs bound_arg rf blur_arg mask_impl)) = inr self ->
             (refframes self = [] \/ length (refframes self) = length (ranges self))
             /\ ranges self = rs
             /\ bound self = bound_arg /\ blur self = blur_arg
             /\ _mask self = mask_impl).
  { intros rf. pose proof (mismatch_spec rf rs) as Hspec.
    destruct ((len rf >? 0) && negb (len rf =? len rs)); [discriminate|].
    intros [= <-]. cbn [ranges bound refframes blur _mask].
    repeat split.
    destruct rf as [|r0 rf']; [now left|]. right.
    destruct (Nat.eq_dec (length (r0 :: rf')) (length rs)) as [E|E];
      [exact E|].
    assert (false = true) by (apply Hspec; split; [discriminate | exact E]).
    discriminate. }
  destruct refframes_arg as [|n|l]; cbn [bind ret].
  - apply Hgen.
  - unfold len at 1. rewrite normalize_seq_scalar. cbn [bind]. apply Hgen.
  - apply Hgen.
Qed.

Lemma init_invariant_witness :
  (refframes (mk [RangeInt 3; RangeNone] None [Some 1; None] true white_mask)
   = []
   \/ length (refframes (mk [RangeInt 3; RangeNone] None [Some 1; None] true
                           white_mask))
      = length (ranges (mk [RangeInt 3; RangeNone] None [Some 1; None] true
                          white_mask)))
  /\ ranges (mk [RangeInt 3; RangeNone] None [Some 1; None] true white_mask)
     = [RangeInt 3; RangeNone]
  /\ bound (mk [RangeInt 3; RangeNone] None [Some 1; None] true white_mask)
     = None
  /\ blur (mk [RangeInt 3; RangeNone] None [Some 1; None] true white_mask)
     = true
  /\ _mask (mk [RangeInt 3; RangeNone] None [Some 1; None] true white_mask)
     = white_mask.
Proof.
  apply (init_invariant white_mask (RangeList [RangeInt 3; RangeNone]) None
           true (RefList [Some 1; None])
           (mk [RangeInt 3; RangeNone] None [Some 1; None] true white_mask)).
  reflexivity.
Defined.

Section WithRuntime.

Variable aka_expr_available : bool.
Variable box_blur : VideoNode -> Z -> Z -> VideoNode.
Variable depth_full : VideoNode -> VideoNode -> VideoNode.

(** [get_mask] in terms of the assembled mask. *)
Lemma get_mask_assembled (self : t) (clip ref : VideoNode) :
  get_mask aka_expr_available box_blur depth_full self clip ref
  = (_ <- check_variable clip ;;
     ref_format <- check_variable ref ;;
     bm <- match bound self with
           | Some b =>
               bm <- BoundingBox.get_mask aka_expr_available b ref ;;
               ret (Some (if blur self then box_blur bm 5 5 else bm))
           | None => ret None
           end ;;
     hm <- assembled depth_full self clip ref ref_format ;;
     match bm with
     | Some bm =>
         norm_expr [hm; bm]
           ([Tok_y] ++ ExprOp_clamp 0 (get_peak_value hm) [Tok_x]
            ++ [Tok_num 0; Tok_ternary])
     | None => ret (std.Limiter hm)
     end).
Proof.
  destruct (refframes self) as [|rf rest] eqn:Hrf.
  - rewrite get_mask_empty_refframes by exact Hrf.
    unfold assembled. rewrite Hrf. reflexivity.
  - unfold get_mask, assembled, len. rewrite Hrf. reflexivity.
Qed.

(** X13: once a reference frame is configured, [get_mask] runs the
    per-pixel algorithm once over the whole clips: the result is the same
    for every list of ranges and every non-empty list of reference frames,
    and without a bound it is the limited, depth-converted
    [_mask(clip, ref)]. *)
Theorem get_mask_explicit_refframes (self : t) (clip ref : VideoNode)
    (rs : list FrameRangeN) (rfs : list (option Z)) :
  refframes self <> [] -> rfs <> [] ->
  get_mask aka_expr_available box_blur depth_full
    (mk rs (bound self) rfs (blur self) (_mask self)) clip ref
  = get_mask aka_expr_available box_blur depth_full self clip ref
  /\ (bound self = None ->
      forall fc fr,
        check_variable clip = inr fc -> check_variable ref = inr fr ->
        get_mask aka_expr_available box_blur depth_full self clip ref
        = inr (std.Limiter (depth_full (_mask self clip ref) clip))).
Proof.
  intros Hself Hrfs. rewrite !get_mask_assembled.
  unfold assembled. cbn [bound refframes blur _mask].
  destruct (refframes self) as [|a l]; [congruence|].
  destruct rfs as [|b m]; [congruence|].
  split; [reflexivity|].
  intros Hb fc fr Hc Hr. rewrite Hb, Hc, Hr. reflexivity.
Qed.

End WithRuntime.

Lemma get_mask_explicit_refframes_witness :
  get_mask true no_blur same_depth
    (mk [RangeInt 0; RangeInt 1] None [Some 2; None] false white_mask)
    clip64 clip64
  = get_mask true no_blur same_depth
      (mk [RangeNone] None [Some 0] false white_mask) clip64 clip64
  /\ (bound (mk [RangeNone] None [Some 0] false white_mask) = None ->
      forall fc fr,
        check_variable clip64 = inr fc -> check_variable clip64 = inr fr ->
        get_mask true no_blur same_depth
          (mk [RangeNone] None [Some 0] false white_mask) clip64 clip64
        = inr (std.Limiter (same_depth (white_mask clip64 clip64) clip64))).
Proof.
  apply (get_mask_explicit_refframes true no_blur same_depth
           (mk [RangeNone] None [Some 0] false white_mask) clip64 clip64
           [RangeInt 0; RangeInt 1] [Some 2; None]); discriminate.
Defined.

(** *** Gating by the bound, and the range of the samples *)

Lemma frame_at_repeat (c : VideoNode) (a : Frame) (k n : nat) :
  frames c = repeat a k -> k <> 0%nat -> frame_at c n = a.
Proof.
  intros Hc Hk. unfold frame_at. rewrite Hc.
  assert (Hlast : last (repeat a k) (fun _ _ => 0) = a).
  { destruct k as [|k]; [congruence|]. clear.
    induction k as [|k IH]; [reflexivity|].
    change (repeat a (S (S k))) with (a :: repeat a (S k)).
    cbn [last]. now destruct (repeat a (S k)) eqn:E; [discriminate|]. }
  rewrite Hlast. apply nth_repeat.
Qed.

Lemma clamp_range (hi v : Z) : 0 <= hi -> 0 <= clamp 0 hi v <= hi.
Proof. unfold clamp. lia. Qed.


(** Every sample [norm_expr] writes lies in the range of the format. *)
Lemma norm_expr_range (clips : list VideoNode) (expr : list ExprToken)
    (out : VideoNode) (g : Frame) (x y : Z) :
  norm_expr clips expr = inr out ->
  0 <= get_peak_value out ->
  In g (frames out) ->
  0 <= g x y <= get_peak_value out.
Proof.
  unfold norm_expr. destruct clips as [|c0 others]; [discriminate|].
  destruct (format c0) as [fmt|] eqn:Hfmt; [|discriminate].
  destruct (stack_depth expr 0) as [[|[|d]]|]; try discriminate.
  destruct (forallb _ _); [|discriminate].
  intros Hm. apply ret_inv in Hm. subst out. unfold get_peak_value.
  cbn [with_frames format frames]. rewrite Hfmt. intros Hpeak Hin.
  apply in_map_iff in Hin. destruct Hin as (n & <- & _).
  cbv beta zeta. destruct (eval_rpn _ _ _); [|lia].
  now apply clamp_range.
Qed.

Lemma same_planes_Loop (hm m : VideoNode) (times : Z) :
  same_planes hm (std.Loop m times) = same_planes hm m.
Proof. reflexivity. Qed.

Lemma same_planes_self (hm m : VideoNode) :
  same_planes hm m = true -> same_planes hm hm = true.
Proof.
  unfold same_planes. destruct (constant_format hm); [|discriminate].
  intros _. now rewrite !Z.eqb_refl, ColorFamily_eqb_refl.
Qed.

Section Gate.

Variable aka_expr_available : bool.
Variable box_blur : VideoNode -> Z -> Z -> VideoNode.
Variable depth_full : VideoNode -> VideoNode -> VideoNode.

(** X14: with a bound and no blur, when the assembled mask is a
    single-plane mask of the resolution of [ref] and the box is valid
    (positive size, non-negative position, within [ref]), [get_mask]
    gates the assembled mask by the box: in every frame a sample within
    the box (outside it, for an inverted box) is the assembled sample
    clamped to the range of the format, and every other sample is 0. *)
Theorem get_mask_gated_by_bound (self : t) (box : BoundingBox.t)
    (clip ref hm : VideoNode) (fc fr hfmt : VideoFormat) :
  bound self = Some box -> blur self = false ->
  check_variable clip = inr fc ->
  check_variable ref = inr fr ->
  frames ref <> [] ->
  0 < bits_per_sample fr ->
  0 < fst (BoundingBox.size box) -> 0 < snd (BoundingBox.size box) ->
  0 <= fst (BoundingBox.pos box) -> 0 <= snd (BoundingBox.pos box) ->
  fst (BoundingBox.pos box) + fst (BoundingBox.size box) <= width ref ->
  snd (BoundingBox.pos box) + snd (BoundingBox.size box) <= height ref ->
  assembled depth_full self clip ref fr = inr hm ->
  format hm = Some hfmt ->
  color_family hfmt = GRAY ->
  subsampling_w hfmt = 0 -> subsampling_h hfmt = 0 ->
  width hm = width ref -> height hm = height ref ->
  0 <= peak_value hfmt ->
  exists out : VideoNode,
    get_mask aka_expr_available box_blur depth_full self clip ref = inr out
    /\ length (frames out) = length (frames hm)
    /\ forall (n : nat) (g : Frame),
         nth_error (frames out) n = Some g ->
         exists hf : Frame,
           nth_error (frames hm) n = Some hf
           /\ forall x y,
                g x y
                = if xorb (in_rectb (fst (BoundingBox.size box))
                             (snd (BoundingBox.size box))
                             (fst (BoundingBox.pos box))
                             (snd (BoundingBox.pos box)) x y)
                       (BoundingBox.invert box)
                  then clamp 0 (peak_value hfmt) (hf x y) else 0.
Proof.
  intros Hb Hblur Hc Hr Hne Hbits Hpw Hph Hox Hoy Hw Hh Hasm Hfmt
    Hgray Hsw Hsh Hwm Hhm Hpeak.
  rewrite get_mask_assembled, Hc, Hr, Hb, Hblur. cbn [bind].
  unfold BoundingBox.get_mask.
  destruct (squaremask_frames aka_expr_available ref fr
              (fst (BoundingBox.size box)) (snd (BoundingBox.size box))
              (fst (BoundingBox.pos box)) (snd (BoundingBox.pos box))
              (BoundingBox.invert box) Hr Hne Hbits Hpw Hph Hox Hoy Hw Hh)
    as (bm & gb & E & Fb & Wb & Hgtb & Fr & P).
  rewrite E. cbn [bind ret]. rewrite Hasm. cbn [bind].
  assert (Hcm : constant_format hm = Some hfmt)
    by (apply constant_format_some; [exact Hfmt | lia | lia]).
  assert (Hcb : constant_format bm = Some (replace_gray fr))
    by (apply constant_format_some; [exact Fb | lia | lia]).
  assert (Hsame : same_planes hm hm = true /\ same_planes hm bm = true).
  { unfold same_planes. rewrite Hcm, Hcb.
    cbn [replace_gray color_family subsampling_w subsampling_h].
    rewrite Hgray, Hsw, Hsh, Wb, Hgtb, Hwm, Hhm, !Z.eqb_refl,
      ColorFamily_eqb_refl.
    split; reflexivity. }
  destruct Hsame as [S1 S2].
  unfold norm_expr. rewrite Hfmt.
  replace (stack_depth _ 0) with (Some 1%nat) by reflexivity.
  cbn [forallb]. rewrite S1, S2. cbn [andb].
  eexists. split; [reflexivity|]. cbn [with_frames frames].
  split; [now rewrite length_map, length_seq|].
  intros n g Hn. apply nth_error_map_seq in Hn. destruct Hn as [-> Hn].
  destruct (nth_error_lt_some _ _ Hn) as [hf Hhf]. exists hf.
  split; [exact Hhf|]. intros x y. cbv beta zeta.
  unfold ExprOp_clamp, get_peak_value. rewrite Hfmt.
  cbn [app eval_rpn env_x env_y].
  rewrite (frame_at_nth_error hm n hf Hhf).
  rewrite (frame_at_repeat bm gb (length (frames ref)) n Fr)
    by (destruct (frames ref); [congruence | discriminate]).
  rewrite P. unfold rect_frame.
  pose proof (peak_value_pos fr Hbits) as Hp.
  destruct (xorb _ _).
  - replace (peak_value fr >? 0) with true
      by (symmetry; rewrite Z.gtb_ltb; apply Z.ltb_lt; lia).
    unfold clamp. lia.
  - cbn. unfold clamp. lia.
Qed.

(** X15: every sample of a mask [get_mask] returns lies between 0 and the
    peak value of the mask's format, with or without a bound. *)
Theorem get_mask_samples_in_range (self : t) (clip ref out : VideoNode)
    (g : Frame) (x y : Z) :
  get_mask aka_expr_available box_blur depth_full self clip ref = inr out ->
  0 <= get_peak_value out ->
  In g (frames out) ->
  0 <= g x y <= get_peak_value out.
Proof.
  rewrite get_mask_assembled.
  destruct (check_variable clip) as [|fc]; [discriminate|]. cbn [bind].
  destruct (check_variable ref) as [|fr]; [discriminate|]. cbn [bind].
  destruct (bound self) as [box|].
  - destruct (BoundingBox.get_mask aka_expr_available box ref) as [|bm];
      [discriminate|]. cbn [bind ret].
    destruct (assembled depth_full self clip ref fr) as [|hm];
      [discriminate|]. cbn [bind].
    apply norm_expr_range.
  - cbn [bind ret].
    destruct (assembled depth_full self clip ref fr) as [|hm];
      [discriminate|]. cbn [bind].
    intros Hm. apply ret_inv in Hm. subst out.
    unfold std.Limiter, get_peak_value.
    cbn [with_frames format frames]. intros Hpeak Hin.
    apply in_map_iff in Hin. destruct Hin as (f & <- & _).
    now apply clamp_range.
Qed.

(** *** One turn of the loop *)

Lemma getitem_valid_index (c : VideoNode) (n : Z) :
  (exists e, getitem c n = inl e) <-> ~ valid_index c n.
Proof.
  unfold getitem, valid_index.
  set (i := if n <? 0 then num_frames c + n else n).
  assert (Hi : (0 <= i < num_frames c) <-> - num_frames c <= n < num_frames c).
  { unfold i. destruct (Z.ltb_spec n 0); lia. }
  destruct ((i <? 0) || (num_frames c <=? i)) eqn:E.
  - apply orb_true_iff in E. rewrite Z.ltb_lt, Z.leb_le in E.
    split; [intros _; lia | intros _; now eexists].
  - apply orb_false_iff in E. rewrite Z.ltb_ge, Z.leb_gt in E.
    destruct (nth_error_lt_some (frames c) (Z.to_nat i)) as [f Hf];
      [unfold num_frames in E; lia|].
    rewrite Hf. split; [intros [e He]; discriminate | intros Hn; lia].
Qed.

(** The only error of [clip[n]] is the index error. *)
Lemma getitem_error (c : VideoNode) (n : Z) (e : Exn) :
  getitem c n = inl e -> e = IndexError.
Proof.
  unfold getitem. destruct (_ || _); [now intros [= <-]|].
  destruct (nth_error _ _); [discriminate | now intros [= <-]].
Qed.

(** X16: one turn of the loop of [get_mask], when the reference frame
    exists in both clips, [_mask] gives for it a single frame [m] of the
    planes and resolution of the accumulator, and the range is a range of
    frames of the accumulator: the accumulator keeps its format,
    resolution and length; within the range each sample becomes the
    maximum of its old value and the sample of [m], clamped to the
    format's range; outside the range the frame is unchanged. *)
Theorem accumulate_turn (self : t) (clip ref hm c r : VideoNode)
    (fmt : VideoFormat) (ran : FrameRangeN) (rf : option Z) (m : Frame) :
  format hm = Some fmt ->
  getitem clip (resolve_rf ref rf) = inr c ->
  getitem ref (resolve_rf ref rf) = inr r ->
  frames (depth_full (_mask self c r) clip) = [m] ->
  same_planes hm (depth_full (_mask self c r) clip) = true ->
  range_within hm ran ->
  exists hm' : VideoNode,
    accumulate depth_full self clip ref hm (ran, rf) = inr hm'
    /\ format hm' = format hm
    /\ width hm' = width hm /\ height hm' = height hm
    /\ num_frames hm' = num_frames hm
    /\ forall (n : nat) (f : Frame),
         nth_error (frames hm') n = Some f ->
         exists h : Frame,
           nth_error (frames hm) n = Some h
           /\ forall x y,
                f x y = if covers hm ran n
                        then clamp 0 (peak_value fmt) (Z.max (h x y) (m x y))
                        else h x y.
Proof.
  intros Hfmt Hc Hr Hm Hsame Hran.
  assert (Hok : turn_ok hm
                  (std.Loop (depth_full (_mask self c r) clip)
                     (num_frames hm)) ran = true).
  { unfold turn_ok.
    rewrite same_planes_Loop, Hsame, (same_planes_self hm _ Hsame).
    cbn [andb]. destruct ran; [reflexivity | |];
      now apply range_within_ok. }
  rewrite (accumulate_max_into depth_full self clip ref hm c r fmt ran rf
             Hfmt Hc Hr Hok).
  eexists. split; [reflexivity|].
  destruct (max_into_shape fmt hm
              (std.Loop (depth_full (_mask self c r) clip) (num_frames hm))
              ran) as (F & W & H & N).
  repeat (split; [assumption|]).
  intros n f Hn. apply max_into_frames in Hn.
  destruct Hn as (h & Hh & Hf). exists h. split; [exact Hh|].
  intros x y. rewrite Hf. destruct (covers hm ran n); [|reflexivity].
  assert (Hlt : (n < length (frames hm))%nat)
    by (apply nth_error_Some; congruence).
  assert (Hnf : num_frames hm <> 0) by (unfold num_frames; lia).
  rewrite (frame_at_nth_error
             (std.Loop (depth_full (_mask self c r) clip) (num_frames hm))
             n m); [reflexivity|].
  rewrite (Loop_single_frame _ m _ Hm Hnf).
  apply nth_error_repeat. unfold num_frames. lia.
Qed.

(** X17: one turn of the loop raises the index error when the resolved
    reference frame index is not an index of [clip] or not an index of
    [ref], whatever the accumulator and the range. *)
Theorem accumulate_bad_index (self : t) (clip ref hm : VideoNode)
    (ran : FrameRangeN) (rf : option Z) :
  ~ (valid_index clip (resolve_rf ref rf)
     /\ valid_index ref (resolve_rf ref rf)) ->
  accumulate depth_full self clip ref hm (ran, rf) = inl IndexError.
Proof.
  intros Hbad.
  pose proof (getitem_valid_index clip (resolve_rf ref rf)) as Hvc.
  pose proof (getitem_valid_index ref (resolve_rf ref rf)) as Hvr.
  destruct (getitem clip (resolve_rf ref rf)) as [e|c] eqn:Hc.
  { rewrite (getitem_error _ _ _ Hc) in Hc.
    exact (accumulate_no_clip_frame depth_full self clip ref hm ran rf
             IndexError Hc). }
  destruct (getitem ref (resolve_rf ref rf)) as [e|r] eqn:Hr.
  { rewrite (getitem_error _ _ _ Hr) in Hr.
    exact (accumulate_no_ref_frame depth_full self clip ref hm c ran rf
             IndexError Hc Hr). }
  exfalso. apply Hbad. unfold valid_index in *. split.
  - destruct (Z_le_dec (- num_frames clip) (resolve_rf ref rf)) as [H1|H1];
      [destruct (Z_lt_dec (resolve_rf ref rf) (num_frames clip)) as [H2|H2];
       [split; assumption|]|];
      exfalso; assert (Hex : exists e, @inr Exn VideoNode c = inl e)
        by (apply Hvc; lia);
      destruct Hex; discriminate.
  - destruct (Z_le_dec (- num_frames ref) (resolve_rf ref rf)) as [H1|H1];
      [destruct (Z_lt_dec (resolve_rf ref rf) (num_frames ref)) as [H2|H2];
       [split; assumption|]|];
      exfalso; assert (Hex : exists e, @inr Exn VideoNode r = inl e)
        by (apply Hvr; lia);
      destruct Hex; discriminate.
Qed.

(** X18: two turns of the loop over disjoint ranges, each with its own
    reference frame, can be swapped: either both orders fail, or both
    give accumulators of the same format, resolution and length with the
    same samples in every frame. *)
Theorem accumulate_swap_disjoint (self : t) (clip ref hm : VideoNode)
    (fmt : VideoFormat) (r1 r2 : FrameRangeN) (rf1 rf2 : option Z) :
  format hm = Some fmt ->
  ranges_disjoint hm r1 r2 ->
  (exists e1 e2 : Exn,
     foldM (accumulate depth_full self clip ref) [(r1, rf1); (r2, rf2)] hm
     = inl e1
     /\ foldM (accumulate depth_full self clip ref) [(r2, rf2); (r1, rf1)] hm
        = inl e2)
  \/ (exists a b : VideoNode,
        foldM (accumulate depth_full self clip ref) [(r1, rf1); (r2, rf2)] hm
        = inr a
        /\ foldM (accumulate depth_full self clip ref)
             [(r2, rf2); (r1, rf1)] hm = inr b
        /\ format a = format b /\ width a = width b /\ height a = height b
        /\ num_frames a = num_frames b
        /\ forall (n : nat) (fa fb : Frame) (x y : Z),
             nth_error (frames a) n = Some fa ->
             nth_error (frames b) n = Some fb ->
             fa x y = fb x y).
Proof.
  intros Hfmt Hdis.
  pose proof (accumulate_disjoint_order box_blur depth_full self clip ref hm
                fmt r1 r2 rf1 rf2 Hfmt Hdis) as H.
  destruct (foldM (accumulate depth_full self clip ref)
              [(r1, rf1); (r2, rf2)] hm) as [e1|a];
    destruct (foldM (accumulate depth_full self clip ref)
                [(r2, rf2); (r1, rf1)] hm) as [e2|b];
    try contradiction.
  - left. now exists e1, e2.
  - right. exists a, b. split; [reflexivity|]. split; [reflexivity|].
    exact H.
Qed.

End Gate.

End DeferredMaskMore.

Import DeferredMask DeferredMaskAux.

Lemma get_mask_gated_by_bound_witness :
  exists out : VideoNode,
    get_mask false no_blur same_depth boxed_mask clip64 clip64 = inr out
    /\ length (frames out) = length (frames (white_mask clip64 clip64))
    /\ forall (n : nat) (g : Frame),
         nth_error (frames out) n = Some g ->
         exists hf : Frame,
           nth_error (frames (white_mask clip64 clip64)) n = Some hf
           /\ forall x y,
                g x y
                = if xorb (in_rectb (fst (BoundingBox.size box64))
                             (snd (BoundingBox.size box64))
                             (fst (BoundingBox.pos box64))
                             (snd (BoundingBox.pos box64)) x y)
                       (BoundingBox.invert box64)
                  then clamp 0 (peak_value gray8) (hf x y) else 0.
Proof.
  apply (DeferredMaskMore.get_mask_gated_by_bound false no_blur same_depth
           boxed_mask box64 clip64 clip64 (white_mask clip64 clip64)
           fmt8 fmt8 gray8);
    try reflexivity; try discriminate; simpl; lia.
Defined.

Lemma get_mask_samples_in_range_witness :
  0 <= (fun _ _ : Z => clamp 0 (get_peak_value blank64) 0) 3 4
  <= get_peak_value (std.Limiter blank64).
Proof.
  apply (DeferredMaskMore.get_mask_samples_in_range true no_blur same_depth
           (mk [RangeNone] None [] false white_mask) clip64 clip64
           (std.Limiter blank64)
           (fun _ _ => clamp 0 (get_peak_value blank64) 0) 3 4);
    [reflexivity | vm_compute; discriminate | left; reflexivity].
Defined.


Lemma accumulate_turn_witness :
  exists hm' : VideoNode,
    accumulate same_depth (mk [] None [] false own_frame_mask)
      gray64 gray64 blank64 (RangeInt 1, None) = inr hm'
    /\ format hm' = format blank64
    /\ width hm' = width blank64 /\ height hm' = height blank64
    /\ num_frames hm' = num_frames blank64
    /\ forall (n : nat) (f : Frame),
         nth_error (frames hm') n = Some f ->
         exists h : Frame,
           nth_error (frames blank64) n = Some h
           /\ forall x y,
                f x y = if covers blank64 (RangeInt 1) n
                        then clamp 0 (peak_value gray8)
                               (Z.max (h x y) ((fun _ y => y) x y))
                        else h x y.
Proof.
  apply (DeferredMaskMore.accumulate_turn same_depth
           (mk [] None [] false own_frame_mask) gray64 gray64
           blank64 (with_frames gray64 [fun _ y => y])
           (with_frames gray64 [fun _ y => y]) gray8
           (RangeInt 1) None (fun _ y => y)); try reflexivity.
  unfold range_within, num_frames. simpl. lia.
Defined.

Lemma accumulate_bad_index_witness :
  accumulate same_depth boxed_mask clip64 clip64 blank64
    (RangeInt 1, Some 5) = inl IndexError.
Proof.
  apply (DeferredMaskMore.accumulate_bad_index same_depth boxed_mask clip64
           clip64 blank64 (RangeInt 1) (Some 5)).
  unfold valid_index, num_frames. simpl. lia.
Defined.

Lemma accumulate_swap_disjoint_witness :
  (exists e1 e2 : Exn,
     foldM (accumulate same_depth boxed_mask clip64 clip64)
       [(RangeInt 0, Some 1); (RangePair (Some 1) None, None)] blank64
     = inl e1
     /\ foldM (accumulate same_depth boxed_mask clip64 clip64)
          [(RangePair (Some 1) None, None); (RangeInt 0, Some 1)] blank64
        = inl e2)
  \/ (exists a b : VideoNode,
        foldM (accumulate same_depth boxed_mask clip64 clip64)
          [(RangeInt 0, Some 1); (RangePair (Some 1) None, None)] blank64
        = inr a
        /\ foldM (accumulate same_depth boxed_mask clip64 clip64)
             [(RangePair (Some 1) None, None); (RangeInt 0, Some 1)] blank64
           = inr b
        /\ format a = format b /\ width a = width b /\ height a = height b
        /\ num_frames a = num_frames b
        /\ forall (n : nat) (fa fb : Frame) (x y : Z),
             nth_error (frames a) n = Some fa ->
             nth_error (frames b) n = Some fb ->
             fa x y = fb x y).
Proof.
  apply (DeferredMaskMore.accumulate_swap_disjoint no_blur same_depth
           boxed_mask clip64 clip64 blank64 (replace_gray fmt8)
           (RangeInt 0) (RangePair (Some 1) None) (Some 1) None);
    [reflexivity | left; simpl; lia].
Defined.

(** * [normalize_mask]: which collaborator each mask source reaches *)

Section NormalizeMaskDispatch.

Variable depth : VideoNode -> VideoNode -> VideoNode.
Variables EdgeDetect MaskClass GeneralMask : Type.
Variable ensure_obj : string -> result EdgeDetect.
Variable is_RidgeDetect : EdgeDetect -> bool.
Variables ridgemask edgemask : EdgeDetect -> VideoNode -> result VideoNode.
Variable general_get_mask :
  GeneralMask -> VideoNode -> option VideoNode -> result VideoNode.
Variable instantiate :
  MaskClass -> result (GenericMaskT EdgeDetect MaskClass GeneralMask).

(** X11: [normalize_mask] on a source that is not a class or a function
    reaches one collaborator and fails only when that one fails: a
    detector gives the depth-converted [ridgemask] when it is a ridge
    detector and [ridge] is set, the depth-converted [edgemask]
    otherwise; a name is resolved by [ensure_obj] and treated as that
    detector; a general mask gives its depth-converted
    [get_mask(clip, ref)]; a clip is depth-converted as it is, and never
    fails. *)
Theorem normalize_mask_dispatch (clip : VideoNode) (ref : option VideoNode)
    (ridge : bool) :
  (forall d : EdgeDetect,
     normalize_mask depth ensure_obj is_RidgeDetect ridgemask edgemask
       general_get_mask instantiate (MaskEdge _ _ _ d) clip ref ridge
     = (c <- (if is_RidgeDetect d && ridge then ridgemask d clip
              else edgemask d clip) ;;
        ret (depth c clip)))
  /\ (forall name : string,
        normalize_mask depth ensure_obj is_RidgeDetect ridgemask edgemask
          general_get_mask instantiate (MaskStr _ _ _ name) clip ref ridge
        = (d <- ensure_obj name ;;
           normalize_mask depth ensure_obj is_RidgeDetect ridgemask edgemask
             general_get_mask instantiate (MaskEdge _ _ _ d) clip ref ridge))
  /\ (forall m : GeneralMask,
        normalize_mask depth ensure_obj is_RidgeDetect ridgemask edgemask
          general_get_mask instantiate (MaskGeneral _ _ _ m) clip ref ridge
        = (c <- general_get_mask m clip ref ;; ret (depth c clip)))
  /\ (forall c : VideoNode,
        normalize_mask depth ensure_obj is_RidgeDetect ridgemask edgemask
          general_get_mask instantiate (MaskNode c) clip ref ridge
        = inr (depth c clip)).
Proof.
  split; [|split; [|split]].
  - intros d. unfold normalize_mask. cbn [bind ret].
    destruct (is_RidgeDetect d && ridge).
    + destruct (ridgemask d clip); reflexivity.
    + cbn [bind ret]. destruct (edgemask d clip); reflexivity.
  - intros name. unfold normalize_mask.
    destruct (ensure_obj name); reflexivity.
  - intros m. unfold normalize_mask. cbn [bind ret].
    destruct (general_get_mask m clip ref); reflexivity.
  - intros c. reflexivity.
Qed.

End NormalizeMaskDispatch.
